(** * Field computation of FeatureServer ([src/field/index.js])

    A shallow embedding of the module that derives the collection of esri
    field objects of a layer, from metadata or from a sample of the data:
    [computeFieldsCollection], [computeFieldObject],
    [computeFieldsFromProperties], [computeFieldsFromMetadata] and
    [warnOnMetadataFieldDiscrepencies].

    Conventions of the embedding:
    - a JavaScript string is the sequence of its code units, restricted to
      U+0000..U+00FF (one [ascii] per code unit);
    - an object used as a bag of properties (a field object, a JSON template)
      is a finite map from property names to primitive values;
    - an object read through fixed properties (a metadata field, the data
      payload, the options) is a record whose optional properties are
      [option]s, [None] standing for [undefined] or [null]; the type of a
      metadata field, which a warning prints, keeps the two apart;
    - a function that can throw returns a [result];
    - [console.warn] is modelled by returning the warnings in emission order;
    - the collaborators that live in other files ([detectType], [esriTypeMap],
      the JSON templates) are parameters of the development. *)

From stdpp Require Import gmap strings list.
From Stdlib Require Import ZArith Ascii.

Local Open Scope Z_scope.

(** ** JavaScript primitives used by the module *)

Module Js.

(** Primitive values stored in the properties of a field object. *)
Inductive value :=
| Undefined
| Null
| Bool (b : bool)
| Num (n : Z)
| Str (s : string).

#[global] Instance value_eq_dec : EqDecision value.
Proof. solve_decision. Defined.

(** Exceptions. [TypeError] is the engine's own (a property read on
    [undefined]); [Thrown] is whatever a collaborator throws. *)
Inductive exn :=
| TypeError
| Thrown (what : string).

#[global] Instance exn_eq_dec : EqDecision exn.
Proof. solve_decision. Defined.

Inductive result (A : Type) :=
| Ok (a : A)
| Err (e : exn).
Arguments Ok {A} a.
Arguments Err {A} e.

#[global] Instance result_ret : MRet result := fun A a => Ok a.
#[global] Instance result_bind : MBind result := fun A B f r =>
  match r with
  | Ok a => f a
  | Err e => Err e
  end.

(** Truthiness of an optional string and of an optional integer. *)
Definition truthy_string (s : option string) : bool :=
  match s with
  | Some s => negb (String.eqb s "")
  | None => false
  end.

Definition truthy_int (n : option Z) : bool :=
  match n with
  | Some n => negb (n =? 0)
  | None => false
  end.

(** [String.prototype.toLowerCase] on code units below U+0100: the letters
    A-Z, and the Latin-1 capitals U+00C0..U+00DE except the sign U+00D7. *)
Definition lower_unit (c : ascii) : ascii :=
  let n := N_of_ascii c in
  if ((65 <=? n) && (n <=? 90) || (192 <=? n) && (n <=? 222) && negb (n =? 215))%N
  then ascii_of_N (n + 32) else c.

Fixpoint toLowerCase (s : string) : string :=
  match s with
  | EmptyString => EmptyString
  | String c s' => String (lower_unit c) (toLowerCase s')
  end.

(** The class [\s] of regular expressions, on code units below U+0100:
    TAB, LF, VT, FF, CR, space and the no-break space. *)
Definition is_space (c : ascii) : bool :=
  let n := N_of_ascii c in
  ((9 <=? n) && (n <=? 13) || (n =? 32) || (n =? 160))%N.

Definition is_comma (c : ascii) : bool := (N_of_ascii c =? 44)%N.

(** Greedy [\s*]: the input after its longest prefix of white space. *)
Fixpoint skip_spaces (s : string) : string :=
  match s with
  | String c s' => if is_space c then skip_spaces s' else s
  | EmptyString => s
  end.

(** One anchored run of the pattern [\s*,\s*] at the head of [s]: the input
    left after the match, or [None] when the pattern does not match there.
    White space is never a comma, so backtracking into the first [\s*]
    cannot help and the greedy reading is the only one. *)
Definition exec_separator (s : string) : option string :=
  match skip_spaces s with
  | String c s' => if is_comma c then Some (skip_spaces s') else None
  | EmptyString => None
  end.

(** The loop of [String.prototype.split] with the separator [/\s*,\s*/]:
    [cur] is the text from the end [p] of the last match to the position
    [q] under scrutiny, [rest] the text from [q] on. A match at [q] is never
    empty, so it always closes the piece [cur]. The counter bounds the
    number of positions visited; [String.length rest] is enough. *)
Fixpoint split_loop (n : nat) (cur rest : string) : list string :=
  match rest with
  | EmptyString => [cur]
  | String c rest' =>
      match n with
      | O => [cur +:+ rest]
      | S n' =>
          match exec_separator rest with
          | Some after => cur :: split_loop n' "" after
          | None => split_loop n' (cur +:+ String c "") rest'
          end
      end
  end.

(** [s.split(/\s*,\s*/)]. On the empty string the pattern does not match, and
    the result is the string itself, as the loop gives. *)
Definition split_commas (s : string) : list string :=
  split_loop (String.length s) "" s.

(** [Array.prototype.findIndex]: the first index whose element satisfies
    the predicate, [-1] when there is none. *)
Fixpoint findIndex_from {A} (p : A -> bool) (i : Z) (a : list A) : Z :=
  match a with
  | [] => -1
  | x :: a' => if p x then i else findIndex_from p (i + 1) a'
  end.

Definition findIndex {A} (p : A -> bool) (a : list A) : Z :=
  findIndex_from p 0 a.

(** [a.splice(start, deleteCount)]: the removed elements and the array as
    it is left. A negative [start] counts from the end. *)
Definition splice {A} (a : list A) (start deleteCount : Z) : list A * list A :=
  let len := Z.of_nat (length a) in
  let actualStart :=
    if start <? 0 then Z.max (len + start) 0 else Z.min start len in
  let actualDeleteCount := Z.min (Z.max deleteCount 0) (len - actualStart) in
  let k := Z.to_nat actualStart in
  let d := Z.to_nat actualDeleteCount in
  (take d (drop k a), take k a ++ drop (k + d)%nat a).

(** [a.unshift(x)]. *)
Definition unshift {A} (x : A) (a : list A) : list A := x :: a.

(** [a.map(f)] for a callback that can throw: elements are visited in
    order and the first exception ends the call. *)
Definition array_map {A B} (f : A -> result B) (a : list A) : result (list B) :=
  mapM f a.

End Js.

Import Js.

(** ** Data model *)

(** A field object, or a JSON template: property names to values. *)
Abbreviation object := (gmap string value).

(** An array slot after the reordering step: a field object, or [undefined]
    ([None]) when [splice] removed nothing. *)
Abbreviation element := (option object).

(** [Object.assign(target, source)]: the properties of [source] override. *)
Definition Object_assign (target source : object) : object := source ∪ target.

(** [o.name === s]. *)
Definition is_named (s : string) (o : object) : bool :=
  bool_decide (o !! "name" = Some (Str s)).

(** The [type] property of a metadata field: missing ([undefined]),
    [null], or a label. Calls and comparisons treat the first two alike;
    a template literal prints them as [undefined] and as [null]. *)
Inductive type_property :=
| NoType
| NullType
| TypeLabel (label : string).

#[global] Instance type_property_eq_dec : EqDecision type_property.
Proof. solve_decision. Defined.

(** An entry of [metadata.fields]: [{ name, alias?, type?, length? }]. *)
Record MetadataField := {
  field_name : string;
  field_alias : option string;
  field_type_property : type_property;
  field_length : option Z
}.

#[global] Instance MetadataField_eq_dec : EqDecision MetadataField.
Proof. solve_decision. Defined.

(** [field.type] as a call or a comparison sees it: a label, or nothing
    ([undefined] or [null]). *)
Definition field_type (f : MetadataField) : option string :=
  match field_type_property f with
  | TypeLabel label => Some label
  | NoType | NullType => None
  end.

(** The warnings written to [console.warn], with the values interpolated in
    the message. *)
Inductive warning :=
| NotFound (name : string) (type : type_property)
| TypeMismatch (name : string) (type : type_property) (featureName featureType : string).

#[global] Instance warning_eq_dec : EqDecision warning.
Proof. solve_decision. Defined.

(** [${field.type}] in a template literal: a missing type prints as
    [undefined], a [null] one as [null]. *)
Definition interpolate (t : type_property) : string :=
  match t with
  | NoType => "undefined"
  | NullType => "null"
  | TypeLabel label => label
  end.

Definition message (w : warning) : string :=
  match w with
  | NotFound name type =>
      "Metadata field " +:+ name +:+ " (" +:+ interpolate type +:+
      ") not found in feature properties object."
  | TypeMismatch name type featureName featureType =>
      "Metadata field " +:+ name +:+ " (" +:+ interpolate type +:+
      ") has a type mismatch with feature property: " +:+ featureName +:+
      " (" +:+ featureType +:+ ")"
  end.

(** The JSON templates the module loads ([templates/field.json] and
    [templates/oid-field.json]); the other four are not used here. *)
Record Templates := {
  field : object;
  objectIDField : object
}.

(** What [computeFieldsFromProperties] returns: the bare array of its early
    return, or the object [{ oidField, fields }]. *)
Inductive FieldsFromProperties :=
| BareArray (a : list element)
| Labeled (oidField : string) (fields : list element).

(** [r.fields]: an array has no such property. *)
Definition get_fields (r : FieldsFromProperties) : option (list element) :=
  match r with
  | BareArray _ => None
  | Labeled _ fields => Some fields
  end.

(** The reordering statement
    [a.unshift(a.splice(a.findIndex(field => field.name === 'OBJECTID'), 1)[0])]. *)
Definition oidFirst (a : list object) : list element :=
  let i := findIndex (is_named "OBJECTID") a in
  let '(removed, a') := splice a i 1 in
  unshift (removed !! 0%nat) (Some <$> a').

(** [_.find(metadataFields, { name: s })]. *)
Definition find_field (s : string) (a : list MetadataField) : option MetadataField :=
  List.find (fun f => bool_decide (field_name f = s)) a.

(** [computeFieldsFromMetadata]: the requested fields, from the metadata
    fields and the [outFields] request parameter. *)
Definition computeFieldsFromMetadata
    (metadataFields : list MetadataField) (outFieldsParam : option string)
  : list MetadataField :=
  let responseFields := metadataFields in
  let responseFields :=
    match find_field "OBJECTID" metadataFields with
    | Some _ => responseFields
    | None => responseFields ++ [{| field_name := "OBJECTID"; field_alias := None;
                                    field_type_property := NoType; field_length := None |}]
    end in
  if truthy_string outFieldsParam && negb (bool_decide (outFieldsParam = Some "*")) then
    let outFields := split_commas (default "" outFieldsParam) in
    List.filter (fun f => bool_decide (field_name f ∈ outFields)) responseFields
  else responseFields.

(** The data payload, [{ metadata?: { fields? }, features?, statistics? }],
    and the options, [{ attributeSample?, outFields? }]. A sample of the data
    ([RawSample]) lists the properties of an object in the order of
    [Object.keys]; the value of a property is opaque to this module. *)
Abbreviation RawSample RawValue := (list (string * RawValue)).

Record Feature (RawValue : Type) := {
  properties : option (RawSample RawValue);
  attributes : option (RawSample RawValue)
}.
Arguments properties {RawValue} _.
Arguments attributes {RawValue} _.

Record Metadata := {
  fields : option (list MetadataField)
}.

Record Data (RawValue : Type) := {
  metadata : option Metadata;
  features : option (list (Feature RawValue));
  statistics : option (list (RawSample RawValue))
}.
Arguments metadata {RawValue} _.
Arguments features {RawValue} _.
Arguments statistics {RawValue} _.

Record Options (RawValue : Type) := {
  attributeSample : option (RawSample RawValue);
  outFields : option string
}.
Arguments attributeSample {RawValue} _.
Arguments outFields {RawValue} _.

Section Field.

(** The collaborators: a sample value is only passed to [detectType], which
    returns a type label; [esriTypeMap] may throw on a label it does not
    know. *)
Context {RawValue : Type}.
Variable detectType : RawValue -> string.
Variable esriTypeMap : string -> result string.
Variable templates : Templates.

(** [computeFieldObject]: one esri field object. *)
Definition computeFieldObject
    (name : string) (alias type : option string) (length : option Z)
    (context : option string) : result object :=
  outputField ←
    (if bool_decide (name = "OBJECTID") then
       mret (Object_assign ∅ (objectIDField templates))
     else
       match type with
       | None => Err TypeError
       | Some type =>
           esriType ← esriTypeMap (toLowerCase type);
           let outputField :=
             Object_assign (Object_assign ∅ (field templates))
               {[ "name" := Str name;
                  "type" := Str esriType;
                  "alias" := Str (if truthy_string alias then default "" alias else name) ]} in
           mret (<[ "length" :=
                      if truthy_int length then Num (default 0 length)
                      else if bool_decide (type = "String") then Num 128
                      else if bool_decide (type = "Date") then Num 36
                      else Undefined ]> outputField)
       end);
  mret (if bool_decide (context = Some "layer") then
          Object_assign outputField
            {[ "editable" := Bool false; "nullable" := Bool false ]}
        else outputField).

(** [computeFieldsFromProperties]: the fields of a sample. *)
Definition computeFieldsFromProperties
    (properties : option (RawSample RawValue)) (requestContext : option string)
  : result FieldsFromProperties :=
  match properties with
  | None => mret (BareArray [])
  | Some properties =>
      fields ← array_map (fun '(key, v) =>
                  computeFieldObject key (Some key) (Some (detectType v)) None
                    requestContext) properties;
      let fields :=
        if bool_decide (requestContext = Some "layer") &&
           negb (existsb (is_named "OBJECTID") fields)
        then fields ++ [Object_assign (Object_assign ∅ (objectIDField templates))
                          {[ "editable" := Bool false; "nullable" := Bool false ]}]
        else fields in
      mret (Labeled "OBJECTID" (oidFirst fields))
  end.

(** [warnOnMetadataFieldDiscrepencies]: the warnings, in emission order. *)
Definition warnOnMetadataFieldDiscrepencies
    (metadataFields : list MetadataField) (properties : RawSample RawValue)
  : list warning :=
  let featureFields := (fun '(name, v) => (name, detectType v)) <$> properties in
  flat_map (fun f =>
    match List.find (fun ff => bool_decide (fst ff = field_name f)) featureFields with
    | None => [NotFound (field_name f) (field_type_property f)]
    | Some featureField =>
        if negb (bool_decide (field_name f = "OBJECTID")) &&
           negb (bool_decide (field_type f = Some "Date") &&
                 bool_decide (snd featureField = "Integer")) &&
           negb (bool_decide (field_type f = Some "Double") &&
                 bool_decide (snd featureField = "Integer")) &&
           negb (bool_decide (field_type f = Some (snd featureField)))
        then [TypeMismatch (field_name f) (field_type_property f)
                (fst featureField) (snd featureField)]
        else []
    end) metadataFields.

(** [computeFieldsCollection] (exported as [computeFieldObject]): the
    warnings it writes, and what it returns, [None] being [undefined]. *)
Definition computeFieldsCollection
    (data : Data RawValue) (requestContext : option string)
    (options : Options RawValue)
  : list warning * result (option (list element)) :=
  let metadata_fields := metadata data ≫= fields in
  let feature := features data ≫= head in
  let properties :=
    match feature with
    | Some feature =>
        match properties feature with
        | Some p => Some p
        | None => attributes feature
        end
    | None => attributeSample options
    end in
  match metadata_fields, statistics data with
  | None, Some statistics =>
      ([], r ← computeFieldsFromProperties (head statistics) requestContext;
           mret (get_fields r))
  | None, None =>
      ([], r ← computeFieldsFromProperties properties requestContext;
           mret (get_fields r))
  | Some metadata_fields, _ =>
      let requestedFields :=
        computeFieldsFromMetadata metadata_fields (outFields options) in
      let warnings :=
        match properties with
        | Some properties => warnOnMetadataFieldDiscrepencies requestedFields properties
        | None => []
        end in
      (warnings,
       responsefields ← array_map (fun f =>
           computeFieldObject (field_name f) (field_alias f) (field_type f)
             (field_length f) requestContext) requestedFields;
       mret (Some (oidFirst responsefields)))
  end.

End Field.

(** ** [computeFieldsFromMetadata] on the store

    The metadata fields reach [computeFieldsFromMetadata] as a reference to
    an array of references to objects, and the array it returns shares these
    objects with the caller. This model keeps the store explicit: arrays and
    objects live at locations, [_.clone], [push] and [filter] allocate or
    update cells, and nothing else is written. *)

Module Heap.

Abbreviation loc := positive.

Inductive cell :=
| Array (elems : list loc)
| Object (o : MetadataField).

Abbreviation heap := (gmap loc cell).

(** Computations on the store; [None] when a reference is dangling or has
    the wrong kind (the caller did not pass an array of objects). *)
Definition M (A : Type) : Type := heap -> option (A * heap).

#[global] Instance M_ret : MRet M := fun A a h => Some (a, h).
#[global] Instance M_bind : MBind M := fun A B f m h =>
  match m h with
  | Some (a, h') => f a h'
  | None => None
  end.

Definition alloc (c : cell) : M loc := fun h =>
  let l := fresh (dom h) in Some (l, <[l := c]> h).

Definition read_array (h : heap) (a : loc) : option (list loc) :=
  match h !! a with
  | Some (Array elems) => Some elems
  | _ => None
  end.

Definition read_object (h : heap) (l : loc) : option MetadataField :=
  match h !! l with
  | Some (Object o) => Some o
  | _ => None
  end.

Definition get_array (a : loc) : M (list loc) := fun h =>
  elems ← read_array h a; Some (elems, h).

Definition set_array (a : loc) (elems : list loc) : M unit := fun h =>
  _ ← read_array h a; Some (tt, <[a := Array elems]> h).

(** The objects an array holds, in order. *)
Definition contents (h : heap) (a : loc) : option (list MetadataField) :=
  elems ← read_array h a; mapM (read_object h) elems.

(** [_.clone(a)]: a new array with the same elements. *)
Definition clone (a : loc) : M loc :=
  elems ← get_array a; alloc (Array elems).

(** [_.find(a, { name: s })]: the first element whose name is [s]. *)
Fixpoint find_from (h : heap) (s : string) (elems : list loc) : option (option loc) :=
  match elems with
  | [] => Some None
  | l :: elems' =>
      o ← read_object h l;
      if bool_decide (field_name o = s) then Some (Some l)
      else find_from h s elems'
  end.

Definition find (s : string) (a : loc) : M (option loc) := fun h =>
  elems ← read_array h a; r ← find_from h s elems; Some (r, h).

(** [a.push(l)]. *)
Definition push (a l : loc) : M unit :=
  elems ← get_array a; set_array a (elems ++ [l]).

(** [a.filter(p)]: a new array with the elements that satisfy [p]. *)
Fixpoint filter_from (h : heap) (p : MetadataField -> bool) (elems : list loc)
  : option (list loc) :=
  match elems with
  | [] => Some []
  | l :: elems' =>
      o ← read_object h l;
      kept ← filter_from h p elems';
      Some (if p o then l :: kept else kept)
  end.

Definition filter (p : MetadataField -> bool) (a : loc) : M loc := fun h =>
  elems ← read_array h a; kept ← filter_from h p elems; alloc (Array kept) h.

Definition computeFieldsFromMetadata
    (metadataFields : loc) (outFieldsParam : option string) : M loc :=
  responseFields ← clone metadataFields;
  found ← find "OBJECTID" metadataFields;
  _ ← match found with
      | Some _ => mret tt
      | None =>
          o ← alloc (Object {| field_name := "OBJECTID"; field_alias := None;
                               field_type_property := NoType; field_length := None |});
          push responseFields o
      end;
  if truthy_string outFieldsParam && negb (bool_decide (outFieldsParam = Some "*")) then
    let outFields := split_commas (default "" outFieldsParam) in
    filter (fun f => bool_decide (field_name f ∈ outFields)) responseFields
  else mret responseFields.

End Heap.

(** ** Reference collaborators

    Concrete collaborators on which the functions are run in the examples. *)

Module Sample.

(** Modelled from the spec: the type detector ([./detect-types]) is not
    among the sources. Section 8 fixes it on an integer ([Integer]), a
    fractional number ([Double]) and a string that is no date ([String]);
    section 4.1 asks for a stable tag on a missing value. Dates are left
    out of the sample values. *)
Inductive raw :=
| RInt (n : Z)
| RFrac (num den : Z)
| RStr (s : string)
| RNull.

Definition detectType (v : raw) : string :=
  match v with
  | RInt _ => "Integer"
  | RFrac _ _ => "Double"
  | RStr _ | RNull => "String"
  end.

(** Modelled from the spec: the type mapping ([./detect-types]) is not
    among the sources. Section 4.1 gives the four labels below and lets an
    unknown label fail with an [UnsupportedTypeError]. *)
Definition esriTypeMap (label : string) : result string :=
  if bool_decide (label = "string") then Ok "esriFieldTypeString"
  else if bool_decide (label = "integer") then Ok "esriFieldTypeInteger"
  else if bool_decide (label = "double") then Ok "esriFieldTypeDouble"
  else if bool_decide (label = "date") then Ok "esriFieldTypeDate"
  else Err (Thrown "UnsupportedTypeError").

(** Modelled from the spec: the JSON templates ([templates/field.json],
    [templates/oid-field.json]) are not among the sources. Section 3 has a
    schema field carry a name, a type and an alias, and the identifier field
    named [OBJECTID]. *)
Definition templates : Templates := {|
  field := {[ "name" := Str "NAME"; "type" := Str "esriFieldTypeString";
              "alias" := Str "NAME" ]};
  objectIDField := {[ "name" := Str "OBJECTID"; "type" := Str "esriFieldTypeOID";
                      "alias" := Str "OBJECTID" ]}
|}.

End Sample.

(** ** Vocabulary of the properties *)

(** How many elements of an array satisfy a test. *)
Definition count_if {A} (p : A -> bool) (a : list A) : nat :=
  length (List.filter p a).

(** [e] is a field object named [s] ([undefined] has no name). *)
Definition element_named (s : string) (e : element) : bool :=
  match e with
  | Some o => is_named s o
  | None => false
  end.

(** The collection invariant: exactly one element is named [OBJECTID], and
    it is the first one. *)
Definition oid_first (a : list element) : Prop :=
  count_if (element_named "OBJECTID") a = 1%nat /\
  exists o, a !! 0%nat = Some (Some o) /\ is_named "OBJECTID" o = true.

(** The metadata field [f] is named [s]. *)
Definition field_named (s : string) (f : MetadataField) : bool :=
  bool_decide (field_name f = s).

(** The entry that [computeFieldsFromMetadata] adds: [{ name: 'OBJECTID' }]. *)
Definition objectid_entry : MetadataField :=
  {| field_name := "OBJECTID"; field_alias := None;
     field_type_property := NoType; field_length := None |}.

(** The name of a piece of a separated list. *)
Definition piece_name (piece : string * string * string) : string := snd piece.

(** [outFieldsParam] is absent, empty or the wild card: no filtering. *)
Definition unfiltered (outFieldsParam : option string) : bool :=
  negb (truthy_string outFieldsParam) || bool_decide (outFieldsParam = Some "*").

(** [outFieldsParam] lets the field named [s] through. *)
Definition lets_through (s : string) (outFieldsParam : option string) : bool :=
  unfiltered outFieldsParam ||
  bool_decide (s ∈ split_commas (default "" outFieldsParam)).

(** The metadata fields once [OBJECTID] is added when it is missing. *)
Definition with_objectid (metadataFields : list MetadataField) : list MetadataField :=
  match find_field "OBJECTID" metadataFields with
  | Some _ => metadataFields
  | None => metadataFields ++ [objectid_entry]
  end.

(** The sample that [computeFieldsCollection] inspects when the metadata has
    no fields: the first statistics record when there are statistics, else
    the properties (or attributes) of the first feature, else
    [options.attributeSample]. *)
Definition feature_sample {RawValue} (data : Data RawValue) (options : Options RawValue)
  : option (RawSample RawValue) :=
  match features data ≫= head with
  | Some feature =>
      match properties feature with
      | Some p => Some p
      | None => attributes feature
      end
  | None => attributeSample options
  end.

Definition inspected_sample {RawValue} (data : Data RawValue) (options : Options RawValue)
  : option (RawSample RawValue) :=
  match statistics data with
  | Some statistics => head statistics
  | None => feature_sample data options
  end.

(** A list of field names as a request would write it: names separated by a
    comma with optional white space on either side. *)
Fixpoint all_spaces (s : string) : bool :=
  match s with
  | EmptyString => true
  | String c s' => is_space c && all_spaces s'
  end.

(** No comma, and no white space at the end. *)
Fixpoint plain_tail (s : string) : bool :=
  match s with
  | EmptyString => true
  | String c s' =>
      negb (is_comma c) &&
      match s' with
      | EmptyString => negb (is_space c)
      | _ => plain_tail s'
      end
  end.

(** A name that survives the parse unchanged: not empty, no comma, no white
    space at either end. *)
Definition plain_name (s : string) : bool :=
  match s with
  | EmptyString => false
  | String c _ => negb (is_space c) && plain_tail s
  end.

(** [(before, after, name)]: a separator [before , after] and the name that
    follows it. *)
Fixpoint join_names (rest : list (string * string * string)) : string :=
  match rest with
  | [] => ""
  | (before, after, name) :: rest' =>
      before +:+ "," +:+ after +:+ name +:+ join_names rest'
  end.

Definition well_separated (rest : list (string * string * string)) : bool :=
  forallb (fun '(before, after, name) =>
             all_spaces before && all_spaces after && plain_name name) rest.

(** ** Vocabulary of the further properties *)

(** The text has no comma. *)
Fixpoint no_comma (s : string) : bool :=
  match s with
  | EmptyString => true
  | String c s' => negb (is_comma c) && no_comma s'
  end.

(** The field object carries the decoration of the [layer] context. *)
Definition decorated (o : object) : Prop :=
  o !! "editable" = Some (Bool false) /\ o !! "nullable" = Some (Bool false).

(** The properties that [computeFieldObject] writes over the field template. *)
Definition written_keys : list string :=
  ["name"; "type"; "alias"; "length"; "editable"; "nullable"].

(** The callback of [requestedFields.map] in [computeFieldsCollection]. *)
Definition field_object (esriTypeMap : string -> result string)
    (templates : Templates) (requestContext : option string) (f : MetadataField)
  : result object :=
  computeFieldObject esriTypeMap templates (field_name f) (field_alias f)
    (field_type f) (field_length f) requestContext.

(** The callback of [Object.keys(properties).map] in
    [computeFieldsFromProperties]. *)
Definition property_object {RawValue} (detectType : RawValue -> string)
    (esriTypeMap : string -> result string) (templates : Templates)
    (requestContext : option string) : string * RawValue -> result object :=
  fun '(key, v) =>
    computeFieldObject esriTypeMap templates key (Some key)
      (Some (detectType v)) None requestContext.

(** [esriTypeMap] maps the type label. *)
Definition accepted (esriTypeMap : string -> result string) (type : string) : Prop :=
  exists esriType, esriTypeMap (toLowerCase type) = Ok esriType.

(** The names that [computeFieldsFromProperties] makes fields for: the keys
    of the sample, and [OBJECTID] in the [layer] context when it is no key. *)
Definition field_names_of_sample (requestContext : option string)
    (keys : list string) : list string :=
  if bool_decide (requestContext = Some "layer") &&
     negb (bool_decide ("OBJECTID" ∈ keys))
  then keys ++ ["OBJECTID"] else keys.

(** Concrete inputs for the further properties. *)
Module Inputs.

Import Sample.

(** The sample [{ a: 1, b: 'x' }]. *)
Definition sample_ab : RawSample raw := [("a", RInt 1); ("b", RStr "x")].

Definition typed_a : MetadataField :=
  {| field_name := "a"; field_alias := None;
     field_type_property := TypeLabel "Integer"; field_length := None |}.

Definition typed_b : MetadataField :=
  {| field_name := "b"; field_alias := Some "B";
     field_type_property := TypeLabel "String"; field_length := Some 10 |}.

Definition untyped_c : MetadataField :=
  {| field_name := "c"; field_alias := None;
     field_type_property := NoType; field_length := None |}.

Definition declared_oid : MetadataField :=
  {| field_name := "OBJECTID"; field_alias := None;
     field_type_property := NoType; field_length := None |}.

(** Metadata [[a; b]] with one feature whose properties are the sample. *)
Definition with_feature : Data raw :=
  {| metadata := Some {| fields := Some [typed_a; typed_b] |};
     features := Some [{| properties := Some sample_ab; attributes := None |}];
     statistics := None |}.

(** The same metadata and nothing else. *)
Definition metadata_only : Data raw :=
  {| metadata := Some {| fields := Some [typed_a; typed_b] |};
     features := None; statistics := None |}.

(** Metadata [[a; c]] where [c] has no type. *)
Definition with_untyped : Data raw :=
  {| metadata := Some {| fields := Some [typed_a; untyped_c] |};
     features := None; statistics := None |}.

(** No metadata, an empty array of statistics, and a feature. *)
Definition empty_statistics : Data raw :=
  {| metadata := None;
     features := Some [{| properties := Some sample_ab; attributes := None |}];
     statistics := Some [] |}.

Definition requesting (outFields : option string) : Options raw :=
  {| attributeSample := None; outFields := outFields |}.

(** A store with the array [[a; b]] at location 1. *)
Definition store : Heap.heap :=
  {[ 1%positive := Heap.Array [2%positive; 3%positive];
     2%positive := Heap.Object typed_a; 3%positive := Heap.Object typed_b ]}.

End Inputs.

(** * Properties *)

(** ** The primitives on examples *)

Example split_commas_ex1 : split_commas "a , b,c" = ["a"; "b"; "c"].
Proof. reflexivity. Qed.
Example split_commas_ex2 : split_commas " a,,b " = [" a"; ""; "b "].
Proof. reflexivity. Qed.
Example split_commas_ex3 : split_commas "a b ,  c" = ["a b"; "c"].
Proof. reflexivity. Qed.
Example splice_ex1 : splice [1;2;3] (-1) 1 = ([3], [1;2]).
Proof. reflexivity. Qed.
Example splice_ex2 : splice (@nil Z) (-1) 1 = ([], []).
Proof. reflexivity. Qed.
Example splice_ex3 : splice [1;2;3] 1 1 = ([2], [1;3]).
Proof. reflexivity. Qed.
Example lower_ex : toLowerCase "String" = "string".
Proof. reflexivity. Qed.
Example message_null_type :
  message (NotFound "x" NullType)
  = "Metadata field x (null) not found in feature properties object.".
Proof. reflexivity. Qed.
Example message_mismatch :
  message (TypeMismatch "x" (TypeLabel "String") "x" "Integer")
  = "Metadata field x (String) has a type mismatch with feature property: x (Integer)".
Proof. reflexivity. Qed.

(** ** Arrays *)

Lemma array_map_Ok {A B} (f : A -> result B) (a : list A) (b : list B) :
  array_map f a = Ok b <-> Forall2 (fun x y => f x = Ok y) a b.
Proof.
  unfold array_map. revert b. induction a as [|x a IH]; intros b; simpl.
  - split.
    + intros [= <-]. constructor.
    + intros H. inversion H. reflexivity.
  - unfold mbind, result_bind, mret, result_ret in *. split.
    + destruct (f x) as [y|e] eqn:Hx; [|discriminate].
      destruct (mapM f a) as [k|e] eqn:Ha; [|discriminate].
      intros [= <-]. constructor; [assumption|]. apply IH. reflexivity.
    + intros H. inversion H as [|? y ? k Hx Hk]; subst. rewrite Hx.
      apply IH in Hk. rewrite Hk. reflexivity.
Qed.

Lemma array_map_Err {A B} (f : A -> result B) (a : list A) (x : A) (e : exn) :
  x ∈ a -> f x = Err e -> exists e', array_map f a = Err e'.
Proof.
  unfold array_map. intros Hin Hx. induction Hin as [x a|x y a Hin IH]; simpl;
    unfold mbind, result_bind, mret, result_ret in *.
  - rewrite Hx. eauto.
  - destruct (f y); [|eauto]. destruct IH as [e' ->]; [assumption|]. eauto.
Qed.

Lemma count_if_app {A} (p : A -> bool) (a b : list A) :
  count_if p (a ++ b) = (count_if p a + count_if p b)%nat.
Proof. unfold count_if. rewrite List.filter_app, length_app. reflexivity. Qed.

Lemma count_if_zero {A} (p : A -> bool) (a : list A) :
  count_if p a = 0%nat <-> Forall (fun x => p x = false) a.
Proof.
  unfold count_if. induction a as [|x a IH]; simpl.
  - split; [constructor|reflexivity].
  - destruct (p x) eqn:Hx; simpl.
    + split; [discriminate|]. intros H. inversion H; congruence.
    + rewrite IH. split; [by constructor|]. intros H. by inversion H.
Qed.

(** An array with exactly one hit splits around it. *)
Lemma count_if_one {A} (p : A -> bool) (a : list A) :
  count_if p a = 1%nat ->
  exists l1 x l2, a = l1 ++ x :: l2 /\ p x = true /\
    Forall (fun y => p y = false) l1 /\ Forall (fun y => p y = false) l2.
Proof.
  induction a as [|y a IH]; [discriminate|].
  unfold count_if in *. simpl. destruct (p y) eqn:Hy; simpl.
  - intros [= H]. exists [], y, a. repeat split; [assumption|constructor|].
    by apply count_if_zero.
  - intros H. destruct (IH H) as (l1 & x & l2 & -> & Hx & H1 & H2).
    exists (y :: l1), x, l2. repeat split; [assumption| |assumption].
    by constructor.
Qed.

Lemma count_if_fmap {A B} (f : A -> B) (p : B -> bool) (a : list A) :
  count_if p (f <$> a) = count_if (fun x => p (f x)) a.
Proof.
  unfold count_if. induction a as [|x a IH]; [reflexivity|]. csimpl.
  destruct (p (f x)); simpl; rewrite IH; reflexivity.
Qed.

Lemma count_if_ext {A} (p q : A -> bool) (a : list A) :
  (forall x, p x = q x) -> count_if p a = count_if q a.
Proof. intros H. unfold count_if. by rewrite (List.filter_ext p q H). Qed.

Lemma findIndex_from_first {A} (p : A -> bool) (i : Z) (l1 : list A) x l2 :
  Forall (fun y => p y = false) l1 -> p x = true ->
  findIndex_from p i (l1 ++ x :: l2) = i + Z.of_nat (length l1).
Proof.
  intros H1 Hx. revert i. induction H1 as [|y l1 Hy _ IH]; intros i; simpl.
  - rewrite Hx. lia.
  - rewrite Hy, IH. lia.
Qed.

Lemma findIndex_from_none {A} (p : A -> bool) (i : Z) (a : list A) :
  Forall (fun y => p y = false) a -> findIndex_from p i a = -1.
Proof.
  intros H. revert i. induction H as [|y a Hy _ IH]; intros i; simpl;
    [reflexivity|]. by rewrite Hy.
Qed.

Lemma splice_one {A} (l1 : list A) x l2 :
  splice (l1 ++ x :: l2) (Z.of_nat (length l1)) 1 = ([x], l1 ++ l2).
Proof.
  unfold splice. rewrite length_app. simpl length.
  destruct (Z.ltb_spec (Z.of_nat (length l1)) 0) as [?|_]; [lia|].
  rewrite (Z.min_l (Z.of_nat (length l1))) by lia.
  rewrite (Z.max_l 1 0) by lia. rewrite Z.min_l by lia.
  rewrite Nat2Z.id. change (Z.to_nat 1) with 1%nat.
  rewrite drop_app_length, take_app_length, drop_app_add.
  reflexivity.
Qed.

(** [splice(-1, 1)] removes the last element. *)
Lemma splice_last {A} (a : list A) x :
  splice (a ++ [x]) (-1) 1 = ([x], a).
Proof.
  pose proof (splice_one a x []) as Hs. rewrite app_nil_r in Hs.
  unfold splice in *. rewrite length_app in *. simpl length in *.
  destruct (Z.ltb_spec (Z.of_nat (length a)) 0) as [?|_]; [lia|].
  change (-1 <? 0) with true. cbv iota.
  rewrite (Z.min_l (Z.of_nat (length a))) in Hs by lia.
  replace (Z.max (Z.of_nat (length a + 1) + -1) 0) with (Z.of_nat (length a)) by lia.
  exact Hs.
Qed.

(** ** The reordering step *)

Lemma oidFirst_nil : oidFirst [] = [None].
Proof. reflexivity. Qed.

Lemma oidFirst_found (l1 : list object) x l2 :
  Forall (fun y => is_named "OBJECTID" y = false) l1 ->
  is_named "OBJECTID" x = true ->
  oidFirst (l1 ++ x :: l2) = Some x :: (Some <$> (l1 ++ l2)).
Proof.
  intros H1 Hx. unfold oidFirst, findIndex.
  rewrite (findIndex_from_first _ 0 l1 x l2 H1 Hx). rewrite Z.add_0_l.
  rewrite splice_one. reflexivity.
Qed.

(** With no field named [OBJECTID], the last field moves to the front. *)
Lemma oidFirst_missing (a : list object) x :
  Forall (fun y => is_named "OBJECTID" y = false) (a ++ [x]) ->
  oidFirst (a ++ [x]) = Some x :: (Some <$> a).
Proof.
  intros H. unfold oidFirst, findIndex. rewrite findIndex_from_none by assumption.
  rewrite splice_last. reflexivity.
Qed.

Lemma oidFirst_one (a : list object) :
  count_if (is_named "OBJECTID") a = 1%nat -> oid_first (oidFirst a).
Proof.
  intros H. destruct (count_if_one _ _ H) as (l1 & x & l2 & -> & Hx & H1 & H2).
  rewrite oidFirst_found by assumption. split.
  - change (Some x :: (Some <$> l1 ++ l2)) with ([Some x] ++ (Some <$> l1 ++ l2)).
    rewrite count_if_app, count_if_fmap. unfold count_if at 1. simpl.
    rewrite Hx. simpl. f_equal.
    apply count_if_zero. apply Forall_app. split; assumption.
  - exists x. split; [reflexivity|assumption].
Qed.

(** ** Field objects *)

Lemma Object_assign_empty (o : object) : Object_assign ∅ o = o.
Proof. unfold Object_assign. apply (right_id ∅ (∪)). Qed.

(** The layer decoration only writes [editable] and [nullable]. *)
Lemma lookup_layer_decoration (o : object) (k : string) :
  k <> "editable" -> k <> "nullable" ->
  Object_assign o {[ "editable" := Bool false; "nullable" := Bool false ]} !! k
  = o !! k.
Proof.
  intros H1 H2. unfold Object_assign. apply lookup_union_r.
  rewrite lookup_insert_ne by congruence. apply lookup_singleton_ne. congruence.
Qed.

Section FieldObject.

Context {RawValue : Type}.
Variable detectType : RawValue -> string.
Variable esriTypeMap : string -> result string.
Variable templates : Templates.

Lemma computeFieldObject_OBJECTID
    (alias type : option string) (length : option Z) (context : option string) :
  computeFieldObject esriTypeMap templates "OBJECTID" alias type length context
  = Ok (if bool_decide (context = Some "layer") then
          Object_assign (objectIDField templates)
            {[ "editable" := Bool false; "nullable" := Bool false ]}
        else objectIDField templates).
Proof.
  unfold computeFieldObject.
  rewrite (bool_decide_eq_true_2 ("OBJECTID" = "OBJECTID")) by reflexivity.
  rewrite Object_assign_empty. reflexivity.
Qed.

(** The object built for a name other than [OBJECTID], before decoration. *)
Lemma computeFieldObject_other (name : string) (alias : option string)
    (type : string) (length : option Z) (context : option string) (esriType : string) :
  name <> "OBJECTID" ->
  esriTypeMap (toLowerCase type) = Ok esriType ->
  computeFieldObject esriTypeMap templates name alias (Some type) length context
  = Ok (let outputField :=
          <[ "length" :=
               if truthy_int length then Num (default 0 length)
               else if bool_decide (type = "String") then Num 128
               else if bool_decide (type = "Date") then Num 36
               else Undefined ]>
            (Object_assign (field templates)
               {[ "name" := Str name; "type" := Str esriType;
                  "alias" := Str (if truthy_string alias then default "" alias
                                  else name) ]}) in
        if bool_decide (context = Some "layer") then
          Object_assign outputField
            {[ "editable" := Bool false; "nullable" := Bool false ]}
        else outputField).
Proof.
  intros Hname Hmap. unfold computeFieldObject.
  rewrite (bool_decide_eq_false_2 (name = "OBJECTID")) by assumption.
  rewrite Hmap. rewrite Object_assign_empty. reflexivity.
Qed.

Lemma computeFieldObject_no_type (name : string) (alias : option string)
    (length : option Z) (context : option string) :
  name <> "OBJECTID" ->
  computeFieldObject esriTypeMap templates name alias None length context
  = Err TypeError.
Proof.
  intros Hname. unfold computeFieldObject.
  rewrite (bool_decide_eq_false_2 (name = "OBJECTID")) by assumption. reflexivity.
Qed.

(** A returned field object carries the name it was asked for. *)
Lemma computeFieldObject_name (name : string) (alias type : option string)
    (length : option Z) (context : option string) (o : object) :
  objectIDField templates !! "name" = Some (Str "OBJECTID") ->
  computeFieldObject esriTypeMap templates name alias type length context = Ok o ->
  o !! "name" = Some (Str name).
Proof.
  intros Hoid. destruct (decide (name = "OBJECTID")) as [->|Hname].
  - rewrite computeFieldObject_OBJECTID. intros [= <-].
    destruct (bool_decide _); [|assumption].
    rewrite lookup_layer_decoration by discriminate. assumption.
  - destruct type as [type|]; [|by rewrite computeFieldObject_no_type].
    destruct (esriTypeMap (toLowerCase type)) as [esriType|e] eqn:Hmap.
    + rewrite (computeFieldObject_other _ _ _ _ _ esriType) by assumption.
      intros [= <-]. cbv zeta.
      assert (forall v, (<["length" := v]>
                (Object_assign (field templates)
                   {[ "name" := Str name; "type" := Str esriType;
                      "alias" := Str (if truthy_string alias then default "" alias
                                      else name) ]}) : object) !! "name"
              = Some (Str name)) as Hlook.
      { intros v. rewrite lookup_insert_ne by discriminate.
        unfold Object_assign. apply lookup_union_Some_l. apply lookup_insert_eq. }
      destruct (bool_decide _); [|apply Hlook].
      rewrite lookup_layer_decoration by discriminate. apply Hlook.
    + unfold computeFieldObject.
      rewrite (bool_decide_eq_false_2 (name = "OBJECTID")) by assumption.
      rewrite Hmap. discriminate.
Qed.

Lemma computeFieldObject_is_named (name : string) (alias type : option string)
    (length : option Z) (context : option string) (o : object) :
  objectIDField templates !! "name" = Some (Str "OBJECTID") ->
  computeFieldObject esriTypeMap templates name alias type length context = Ok o ->
  is_named "OBJECTID" o = bool_decide (name = "OBJECTID").
Proof.
  intros Hoid Ho. unfold is_named.
  rewrite (computeFieldObject_name _ _ _ _ _ _ Hoid Ho).
  apply bool_decide_ext. split; congruence.
Qed.

(** The [length] that line 79 computes, for a name other than [OBJECTID]
    and a type label that [esriTypeMap] accepts: the length argument when it
    is given and is not zero; 128 for the type [String], 36 for the type
    [Date] and [undefined] for any other type when it is missing, and also
    when it is zero. The context plays no part. *)
Theorem computeFieldObject_length (name : string) (alias : option string)
    (type : string) (length : option Z) (context : option string) (esriType : string) :
  name <> "OBJECTID" ->
  esriTypeMap (toLowerCase type) = Ok esriType ->
  exists outputField,
    computeFieldObject esriTypeMap templates name alias (Some type) length context
    = Ok outputField /\
    outputField !! "length" =
      Some (match length with
            | Some n =>
                if decide (n = 0) then
                  if decide (type = "String") then Num 128
                  else if decide (type = "Date") then Num 36 else Undefined
                else Num n
            | None =>
                if decide (type = "String") then Num 128
                else if decide (type = "Date") then Num 36 else Undefined
            end).
Proof.
  intros Hname Hmap. eexists. split.
  - apply computeFieldObject_other; eassumption.
  - cbv zeta.
    assert (forall (o : object) v,
      (if bool_decide (context = Some "layer") then
         Object_assign (<["length" := v]> o)
           {[ "editable" := Bool false; "nullable" := Bool false ]}
       else <["length" := v]> o) !! "length" = Some v) as Hlook.
    { intros o v. destruct (bool_decide _).
      - rewrite lookup_layer_decoration by discriminate. apply lookup_insert_eq.
      - apply lookup_insert_eq. }
    rewrite Hlook. f_equal.
    destruct length as [n|]; simpl.
    + destruct (Z.eqb_spec n 0) as [->|Hn]; simpl;
        repeat case_bool_decide; repeat case_decide; congruence.
    + repeat case_bool_decide; repeat case_decide; congruence.
Qed.

(** C9: for a sample that is an object without keys, in a context other than
    [layer], [computeFieldsFromProperties] returns [{ oidField: 'OBJECTID',
    fields }] where [fields] has exactly one slot, and that slot holds
    [undefined]: [findIndex] finds nothing, [splice] removes nothing from the
    empty array, and [unshift] stores element 0 of the empty removal. *)
Theorem computeFieldsFromProperties_no_keys (requestContext : option string) :
  requestContext <> Some "layer" ->
  computeFieldsFromProperties detectType esriTypeMap templates (Some []) requestContext
  = Ok (Labeled "OBJECTID" [None]).
Proof.
  intros Hctx. unfold computeFieldsFromProperties. simpl.
  rewrite bool_decide_eq_false_2 by assumption. reflexivity.
Qed.

End FieldObject.

(** ** Splitting the [outFields] parameter *)

Lemma string_app_nil_l (s : string) : "" +:+ s = s.
Proof. reflexivity. Qed.

Lemma string_app_cons (c : ascii) (s t : string) :
  String c s +:+ t = String c (s +:+ t).
Proof. reflexivity. Qed.

Lemma string_app_nil_r (s : string) : s +:+ "" = s.
Proof.
  induction s as [|c s IH]; [reflexivity|]. by rewrite string_app_cons, IH.
Qed.

Lemma string_app_assoc (s t u : string) : (s +:+ t) +:+ u = s +:+ (t +:+ u).
Proof.
  induction s as [|c s IH]; [reflexivity|]. by rewrite !string_app_cons, IH.
Qed.

Lemma string_length_app (s t : string) :
  String.length (s +:+ t) = (String.length s + String.length t)%nat.
Proof.
  induction s as [|c s IH]; [reflexivity|].
  rewrite string_app_cons. simpl. by rewrite IH.
Qed.

Lemma space_not_comma (c : ascii) : is_space c = true -> is_comma c = false.
Proof.
  unfold is_space, is_comma. intros H.
  destruct (N.eqb_spec (N_of_ascii c) 44) as [Heq|]; [|reflexivity].
  rewrite Heq in H. discriminate.
Qed.

Lemma skip_spaces_all_spaces (w s : string) :
  all_spaces w = true -> skip_spaces (w +:+ s) = skip_spaces s.
Proof.
  induction w as [|c w IH]; [reflexivity|]. rewrite string_app_cons. simpl.
  intros [Hc Hw]%andb_true_iff. rewrite Hc. by apply IH.
Qed.

Lemma skip_spaces_plain_name (name s : string) :
  plain_name name = true -> skip_spaces (name +:+ s) = name +:+ s.
Proof.
  destruct name as [|c name]; [discriminate|]. rewrite string_app_cons. simpl.
  intros [Hc _]%andb_true_iff. apply negb_true_iff in Hc. by rewrite Hc.
Qed.

(** Inside a name the separator never matches: the white space that may
    follow is followed by a character of the name, which is no comma. *)
Lemma skip_spaces_plain_tail (v s : string) :
  v <> "" -> plain_tail v = true ->
  exists d t, skip_spaces (v +:+ s) = String d t /\ is_comma d = false.
Proof.
  induction v as [|c v IH]; [congruence|]. intros _ Hv.
  cbn [plain_tail] in Hv. apply andb_true_iff in Hv as [Hc Hv].
  apply negb_true_iff in Hc. rewrite string_app_cons. cbn [skip_spaces].
  destruct (is_space c) eqn:Hsp; [|eauto].
  destruct v as [|c' v]; [discriminate|]. apply IH; [congruence|assumption].
Qed.

Lemma exec_separator_plain_tail (v s : string) :
  v <> "" -> plain_tail v = true -> exec_separator (v +:+ s) = None.
Proof.
  intros Hne Hv. unfold exec_separator.
  destruct (skip_spaces_plain_tail v s Hne Hv) as (d & t & -> & ->). reflexivity.
Qed.

Lemma plain_tail_tail (c : ascii) (v : string) :
  plain_tail (String c v) = true -> plain_tail v = true.
Proof.
  cbn [plain_tail]. intros [_ Hv]%andb_true_iff. by destruct v.
Qed.

Lemma split_loop_nil (n : nat) (cur : string) : split_loop n cur "" = [cur].
Proof. by destruct n. Qed.

(** The loop walks through a name without cutting it. *)
Lemma split_loop_plain_tail (v cur s : string) (n : nat) :
  plain_tail v = true -> (String.length v <= n)%nat ->
  split_loop n cur (v +:+ s) = split_loop (n - String.length v) (cur +:+ v) s.
Proof.
  revert cur n. induction v as [|c v IH]; intros cur n Hv Hn.
  - simpl. by rewrite string_app_nil_l, string_app_nil_r, Nat.sub_0_r.
  - destruct n as [|n]; [simpl in Hn; lia|].
    rewrite string_app_cons. cbn [split_loop String.length Nat.sub].
    rewrite <- string_app_cons.
    rewrite exec_separator_plain_tail by (congruence || assumption).
    rewrite IH by (eauto using plain_tail_tail || (simpl in Hn; lia)).
    rewrite string_app_assoc. reflexivity.
Qed.

Lemma exec_separator_match (before after s : string) :
  all_spaces before = true -> all_spaces after = true -> skip_spaces s = s ->
  exec_separator (before +:+ "," +:+ after +:+ s) = Some s.
Proof.
  intros Hb Ha Hs. unfold exec_separator.
  rewrite skip_spaces_all_spaces by assumption.
  rewrite string_app_cons, string_app_nil_l. cbn [skip_spaces].
  change (is_space ",") with false. cbv iota.
  change (is_comma ",") with true. cbv iota.
  rewrite skip_spaces_all_spaces by assumption. by rewrite Hs.
Qed.

Lemma split_loop_match (n : nat) (cur s after : string) :
  exec_separator s = Some after -> (1 <= n)%nat ->
  split_loop n cur s = cur :: split_loop (n - 1) "" after.
Proof.
  intros Hs Hn. destruct s as [|c s]; [discriminate|].
  destruct n as [|n]; [lia|]. cbn [split_loop]. rewrite Hs.
  by rewrite Nat.sub_succ, Nat.sub_0_r.
Qed.

Lemma split_loop_join (rest : list (string * string * string))
    (cur name : string) (n : nat) :
  plain_tail name = true -> well_separated rest = true ->
  (String.length (name +:+ join_names rest) <= n)%nat ->
  split_loop n cur (name +:+ join_names rest)
  = (cur +:+ name) :: (piece_name <$> rest).
Proof.
  revert cur name n. induction rest as [|[[before after] next] rest IH];
    intros cur name n Hname Hrest Hn; rewrite string_length_app in Hn.
  - rewrite split_loop_plain_tail by (assumption || lia).
    apply split_loop_nil.
  - cbn [well_separated forallb] in Hrest.
    apply andb_true_iff in Hrest as [Hpiece Hrest].
    apply andb_true_iff in Hpiece as [Hpiece Hnext].
    apply andb_true_iff in Hpiece as [Hb Ha].
    cbn [join_names] in *.
    rewrite !string_length_app in Hn. cbn [String.length] in Hn.
    rewrite split_loop_plain_tail by (assumption || lia).
    rewrite (split_loop_match _ _ _ (next +:+ join_names rest)); [|
      apply exec_separator_match; try assumption;
      by apply skip_spaces_plain_name | lia].
    rewrite fmap_cons. f_equal.
    rewrite <- (string_app_nil_l next) at 2. apply IH.
    + destruct next as [|c next]; [discriminate|]. simpl in Hnext.
      by apply andb_true_iff in Hnext as [_ ?].
    + assumption.
    + rewrite string_length_app. lia.
Qed.

(** A list of plain names, separated by commas with white space around
    them, parses to these names. *)
Lemma split_commas_join (first : string) (rest : list (string * string * string)) :
  plain_name first = true -> well_separated rest = true ->
  split_commas (first +:+ join_names rest) = first :: (piece_name <$> rest).
Proof.
  intros Hfirst Hrest. unfold split_commas.
  rewrite split_loop_join; [reflexivity| |assumption|lia].
  destruct first as [|c first]; [discriminate|]. simpl in Hfirst.
  by apply andb_true_iff in Hfirst as [_ ?].
Qed.

(** A match of the separator consumes at least the comma, so the counter of
    [split_loop] never runs out before the text does. *)
Lemma skip_spaces_length (s : string) :
  (String.length (skip_spaces s) <= String.length s)%nat.
Proof.
  induction s as [|c s IH]; simpl; [lia|]. destruct (is_space c); simpl; lia.
Qed.

Lemma exec_separator_shorter (s after : string) :
  exec_separator s = Some after -> (String.length after < String.length s)%nat.
Proof.
  unfold exec_separator. pose proof (skip_spaces_length s) as Hs.
  destruct (skip_spaces s) as [|c t]; [discriminate|].
  destruct (is_comma c); [|discriminate]. intros [= <-].
  pose proof (skip_spaces_length t). simpl in Hs. lia.
Qed.

Lemma split_loop_enough (n m : nat) (cur s : string) :
  (String.length s <= n)%nat -> (String.length s <= m)%nat ->
  split_loop n cur s = split_loop m cur s.
Proof.
  revert m cur s. induction n as [|n IH]; intros m cur s Hn Hm.
  - destruct s; [by destruct m|simpl in Hn; lia].
  - destruct s as [|c s]; [by destruct m|].
    destruct m as [|m]; [simpl in Hm; lia|]. cbn [split_loop].
    simpl in Hn, Hm.
    destruct (exec_separator (String c s)) as [after|] eqn:Hex.
    + apply exec_separator_shorter in Hex. simpl in Hex.
      f_equal. apply IH; lia.
    + apply IH; lia.
Qed.

(** The equation of the loop, free of the counter. *)
Lemma split_commas_unfold (cur s : string) :
  split_loop (String.length s) cur s =
  match s with
  | EmptyString => [cur]
  | String c s' =>
      match exec_separator s with
      | Some after => cur :: split_loop (String.length after) "" after
      | None => split_loop (String.length s') (cur +:+ String c "") s'
      end
  end.
Proof.
  destruct s as [|c s]; [reflexivity|]. cbn [String.length split_loop].
  destruct (exec_separator (String c s)) as [after|] eqn:Hex; [|reflexivity].
  apply exec_separator_shorter in Hex. simpl in Hex.
  f_equal. apply split_loop_enough; lia.
Qed.

(** ** Requested fields from metadata *)

Lemma find_field_None (s : string) (a : list MetadataField) :
  find_field s a = None <-> Forall (fun f => field_name f <> s) a.
Proof.
  unfold find_field. induction a as [|f a IH]; simpl.
  - split; [constructor|reflexivity].
  - case_bool_decide as Hf.
    + split; [discriminate|]. intros H. by inversion H.
    + rewrite IH. split; [by constructor|]. intros H. by inversion H.
Qed.

Lemma find_field_Some (s : string) (a : list MetadataField) f :
  find_field s a = Some f -> f ∈ a /\ field_name f = s.
Proof.
  unfold find_field. intros H. apply List.find_some in H as [Hin Hf].
  split; [by apply list_elem_of_In|]. by apply bool_decide_eq_true in Hf.
Qed.

(** The function is the filter of the metadata fields completed with
    [OBJECTID], or these fields themselves when nothing is filtered. *)
Lemma computeFieldsFromMetadata_unfold
    (metadataFields : list MetadataField) (outFieldsParam : option string) :
  computeFieldsFromMetadata metadataFields outFieldsParam =
  if unfiltered outFieldsParam then with_objectid metadataFields
  else List.filter
         (fun f => bool_decide
            (field_name f ∈ split_commas (default "" outFieldsParam)))
         (with_objectid metadataFields).
Proof.
  unfold computeFieldsFromMetadata, unfiltered, with_objectid, objectid_entry.
  destruct (truthy_string outFieldsParam);
    destruct (bool_decide (outFieldsParam = Some "*")); reflexivity.
Qed.

Lemma count_field_named_zero (s : string) (a : list MetadataField) :
  count_if (field_named s) a = 0%nat <-> Forall (fun f => field_name f <> s) a.
Proof.
  rewrite count_if_zero. apply Forall_iff. intros f. unfold field_named.
  rewrite bool_decide_eq_false. reflexivity.
Qed.

Lemma filter_keeps_name (s : string) (names : list string) (a : list MetadataField) :
  s ∈ names ->
  count_if (field_named s)
    (List.filter (fun f => bool_decide (field_name f ∈ names)) a)
  = count_if (field_named s) a.
Proof.
  intros Hs. unfold count_if. induction a as [|f a IH]; [reflexivity|]. simpl.
  destruct (bool_decide (field_name f ∈ names)) eqn:Hin; simpl.
  - destruct (field_named s f); simpl; by rewrite IH.
  - destruct (field_named s f) eqn:Hf; simpl; [|by rewrite IH].
    apply bool_decide_eq_true in Hf. apply bool_decide_eq_false in Hin.
    subst s. contradiction.
Qed.

Lemma filter_drops_name (s : string) (names : list string) (a : list MetadataField) :
  s ∉ names ->
  count_if (field_named s)
    (List.filter (fun f => bool_decide (field_name f ∈ names)) a) = 0%nat.
Proof.
  intros Hs. apply count_field_named_zero. apply Forall_forall. intros f Hf.
  apply list_elem_of_In, List.filter_In in Hf as [_ Hf].
  apply bool_decide_eq_true in Hf. congruence.
Qed.

Lemma filter_sublist {A} (p : A -> bool) (a : list A) :
  sublist (List.filter p a) a.
Proof.
  induction a as [|x a IH]; simpl; [constructor|].
  destruct (p x); by constructor.
Qed.

(** C3 (as amended): for metadata fields none of which is named [OBJECTID]:
    when [outFieldsParam] is absent, empty or the wild card, or lists
    [OBJECTID], the output is some of the metadata fields, in their order,
    followed by the entry [{ name: 'OBJECTID' }], which is its only entry of
    that name; when [outFieldsParam] is a list that omits [OBJECTID], the
    filter removes the added entry too and the output has no entry named
    [OBJECTID]. *)
Theorem computeFieldsFromMetadata_adds_OBJECTID
    (metadataFields : list MetadataField) (outFieldsParam : option string) :
  Forall (fun f => field_name f <> "OBJECTID") metadataFields ->
  if lets_through "OBJECTID" outFieldsParam then
    exists kept,
      computeFieldsFromMetadata metadataFields outFieldsParam
      = kept ++ [objectid_entry] /\
      sublist kept metadataFields /\
      count_if (field_named "OBJECTID")
        (computeFieldsFromMetadata metadataFields outFieldsParam) = 1%nat
  else
    count_if (field_named "OBJECTID")
      (computeFieldsFromMetadata metadataFields outFieldsParam) = 0%nat.
Proof.
  intros Hno. rewrite computeFieldsFromMetadata_unfold.
  assert (with_objectid metadataFields = metadataFields ++ [objectid_entry]) as ->.
  { unfold with_objectid. by apply find_field_None in Hno as ->. }
  assert (count_if (field_named "OBJECTID") (metadataFields ++ [objectid_entry])
          = 1%nat) as Hone.
  { rewrite count_if_app.
    apply count_field_named_zero in Hno as ->. reflexivity. }
  unfold lets_through. destruct (unfiltered outFieldsParam); simpl.
  - exists metadataFields. split; [reflexivity|]. split; [reflexivity|assumption].
  - case_bool_decide as Hin.
    + exists (List.filter
                (fun f => bool_decide
                   (field_name f ∈ split_commas (default "" outFieldsParam)))
                metadataFields).
      split; [|split].
      * rewrite List.filter_app. simpl.
        rewrite (bool_decide_eq_true_2 _ Hin). reflexivity.
      * apply filter_sublist.
      * by rewrite filter_keeps_name.
    + by apply filter_drops_name.
Qed.

(** C5 (as amended): for an [outFieldsParam] that is a string other than the
    empty string and the wild card, the output is the metadata fields,
    completed with [OBJECTID] when it was missing, filtered by the names that
    the parameter lists: an entry is kept exactly when its name is in the
    parsed list, and the kept entries stand in the order of the metadata. The
    parameter is cut at each comma together with the white space around it:
    plain names joined by such separators parse to these names. *)
Theorem computeFieldsFromMetadata_filters
    (metadataFields : list MetadataField) (outFieldsParam : string) :
  outFieldsParam <> "" -> outFieldsParam <> "*" ->
  computeFieldsFromMetadata metadataFields (Some outFieldsParam)
  = List.filter
      (fun f => bool_decide (field_name f ∈ split_commas outFieldsParam))
      (with_objectid metadataFields) /\
  (forall f,
     f ∈ computeFieldsFromMetadata metadataFields (Some outFieldsParam) <->
     f ∈ with_objectid metadataFields /\
     field_name f ∈ split_commas outFieldsParam) /\
  sublist (computeFieldsFromMetadata metadataFields (Some outFieldsParam))
    (with_objectid metadataFields) /\
  (forall first rest,
     plain_name first = true -> well_separated rest = true ->
     outFieldsParam = first +:+ join_names rest ->
     split_commas outFieldsParam = first :: (piece_name <$> rest)).
Proof.
  intros Hempty Hstar.
  assert (computeFieldsFromMetadata metadataFields (Some outFieldsParam)
          = List.filter
              (fun f => bool_decide (field_name f ∈ split_commas outFieldsParam))
              (with_objectid metadataFields)) as Heq.
  { rewrite computeFieldsFromMetadata_unfold. unfold unfiltered. simpl.
    apply String.eqb_neq in Hempty as ->.
    rewrite bool_decide_eq_false_2 by congruence. reflexivity. }
  rewrite Heq. split; [reflexivity|]. split; [|split].
  - intros f. rewrite list_elem_of_In, List.filter_In, <- list_elem_of_In.
    by rewrite bool_decide_eq_true.
  - apply filter_sublist.
  - intros first rest Hfirst Hrest ->. by apply split_commas_join.
Qed.

(** C7: the wild card [*] as [outFieldsParam] gives the result that an
    absent [outFieldsParam] gives, for every sequence of metadata fields; on
    the store, the two calls run the same computation. *)
Theorem computeFieldsFromMetadata_wildcard (metadataFields : list MetadataField) :
  computeFieldsFromMetadata metadataFields (Some "*")
  = computeFieldsFromMetadata metadataFields None /\
  forall (a : Heap.loc) (h : Heap.heap),
    Heap.computeFieldsFromMetadata a (Some "*") h
    = Heap.computeFieldsFromMetadata a None h.
Proof. split; reflexivity. Qed.

(** ** Collections *)

Lemma count_if_Forall2 {A B} (R : A -> B -> Prop) (p : A -> bool) (q : B -> bool)
    (a : list A) (b : list B) :
  (forall x y, R x y -> p x = q y) -> Forall2 R a b -> count_if p a = count_if q b.
Proof.
  intros HR H. unfold count_if. induction H as [|x y a b Hxy _ IH]; [reflexivity|].
  simpl. rewrite (HR x y Hxy). destruct (q y); simpl; by rewrite IH.
Qed.

Lemma existsb_count_if {A} (p : A -> bool) (a : list A) :
  existsb p a = negb (Nat.eqb (count_if p a) 0).
Proof.
  unfold count_if. induction a as [|x a IH]; [reflexivity|]. simpl.
  destruct (p x); simpl; [reflexivity|assumption].
Qed.

(** The keys of an object are distinct: a key occurs once or not at all. *)
Lemma count_key_NoDup {V} (k : string) (props : list (string * V)) :
  NoDup props.*1 ->
  count_if (fun kv => bool_decide (fst kv = k)) props
  = if bool_decide (k ∈ props.*1) then 1%nat else 0%nat.
Proof.
  unfold count_if. induction props as [|[k' v] props IH]; [reflexivity|].
  rewrite fmap_cons. intros [Hk' Hnd]%NoDup_cons. specialize (IH Hnd).
  simpl in Hk'.
  cbn [List.filter fst]. destruct (decide (k' = k)) as [->|Hk].
  - rewrite (bool_decide_eq_true_2 (k = k)) by reflexivity.
    rewrite (bool_decide_eq_true_2 (k ∈ k :: props.*1)) by left.
    rewrite (bool_decide_eq_false_2 _ Hk') in IH. simpl. by rewrite IH.
  - rewrite (bool_decide_eq_false_2 (k' = k)) by assumption.
    rewrite IH.
    rewrite (bool_decide_ext (k ∈ k' :: props.*1) (k ∈ props.*1));
      [reflexivity|].
    rewrite elem_of_cons. split; [intros [?|?]; [congruence|done]|by right].
Qed.

Lemma count_with_objectid (metadataFields : list MetadataField) :
  (count_if (field_named "OBJECTID") metadataFields <= 1)%nat ->
  count_if (field_named "OBJECTID") (with_objectid metadataFields) = 1%nat.
Proof.
  intros Hle. unfold with_objectid.
  destruct (find_field "OBJECTID" metadataFields) as [f|] eqn:Hfind.
  - destruct (count_if (field_named "OBJECTID") metadataFields) as [|[|n]] eqn:Hc;
      [|reflexivity|lia].
    apply count_field_named_zero, find_field_None in Hc. congruence.
  - rewrite count_if_app. apply find_field_None, count_field_named_zero in Hfind.
    by rewrite Hfind.
Qed.

Lemma count_requested (metadataFields : list MetadataField)
    (outFieldsParam : option string) :
  (count_if (field_named "OBJECTID") metadataFields <= 1)%nat ->
  lets_through "OBJECTID" outFieldsParam = true ->
  count_if (field_named "OBJECTID")
    (computeFieldsFromMetadata metadataFields outFieldsParam) = 1%nat.
Proof.
  intros Hle Hthrough. rewrite computeFieldsFromMetadata_unfold.
  unfold lets_through in Hthrough.
  destruct (unfiltered outFieldsParam); [by apply count_with_objectid|].
  simpl in Hthrough. apply bool_decide_eq_true in Hthrough.
  rewrite filter_keeps_name by assumption. by apply count_with_objectid.
Qed.

Section Collection.

Context {RawValue : Type}.
Variable detectType : RawValue -> string.
Variable esriTypeMap : string -> result string.
Variable templates : Templates.

Lemma computeFieldsCollection_sample (data : Data RawValue)
    (requestContext : option string) (options : Options RawValue) :
  metadata data ≫= fields = None ->
  computeFieldsCollection detectType esriTypeMap templates data requestContext options
  = ([], r ← computeFieldsFromProperties detectType esriTypeMap templates
               (inspected_sample data options) requestContext;
         mret (get_fields r)).
Proof.
  intros Hmd. unfold computeFieldsCollection, inspected_sample, feature_sample.
  rewrite Hmd. destruct (statistics data); reflexivity.
Qed.

Lemma computeFieldsCollection_metadata (data : Data RawValue)
    (requestContext : option string) (options : Options RawValue)
    (metadataFields : list MetadataField) :
  metadata data ≫= fields = Some metadataFields ->
  snd (computeFieldsCollection detectType esriTypeMap templates data
         requestContext options)
  = (responsefields ← array_map (fun f =>
         computeFieldObject esriTypeMap templates (field_name f) (field_alias f)
           (field_type f) (field_length f) requestContext)
       (computeFieldsFromMetadata metadataFields (outFields options));
     mret (Some (oidFirst responsefields))).
Proof.
  intros Hmd. unfold computeFieldsCollection. rewrite Hmd. reflexivity.
Qed.

Hypothesis objectIDField_name :
  objectIDField templates !! "name" = Some (Str "OBJECTID").

Lemma decorated_objectIDField_named :
  is_named "OBJECTID"
    (Object_assign (Object_assign ∅ (objectIDField templates))
       {[ "editable" := Bool false; "nullable" := Bool false ]}) = true.
Proof.
  unfold is_named. apply bool_decide_eq_true.
  rewrite lookup_layer_decoration by discriminate.
  by rewrite Object_assign_empty.
Qed.

Lemma computeFieldsFromProperties_invariant
    (props : RawSample RawValue) (requestContext : option string)
    (r : FieldsFromProperties) :
  NoDup props.*1 ->
  requestContext = Some "layer" \/ "OBJECTID" ∈ props.*1 ->
  computeFieldsFromProperties detectType esriTypeMap templates (Some props)
    requestContext = Ok r ->
  exists a, r = Labeled "OBJECTID" a /\ oid_first a.
Proof.
  intros Hnd Hcond. unfold computeFieldsFromProperties.
  unfold mbind, result_bind, mret, result_ret.
  destruct (array_map _ props) as [fs|e] eqn:Hmap; [|discriminate].
  intros [= <-]. eexists. split; [reflexivity|]. apply oidFirst_one.
  apply array_map_Ok in Hmap.
  assert (count_if (is_named "OBJECTID") fs
          = if bool_decide ("OBJECTID" ∈ props.*1) then 1%nat else 0%nat) as Hc.
  { rewrite <- (count_key_NoDup "OBJECTID" props Hnd). symmetry.
    eapply count_if_Forall2; [|exact Hmap].
    intros [k v] o Ho. simpl. symmetry.
    by apply (computeFieldObject_is_named esriTypeMap templates) in Ho. }
  rewrite existsb_count_if, Hc. case_bool_decide as Hin; simpl.
  - by rewrite andb_false_r.
  - destruct Hcond as [->|?]; [|contradiction].
    rewrite (bool_decide_eq_true_2 (Some "layer" = Some "layer")) by reflexivity.
    simpl. rewrite count_if_app, Hc. unfold count_if at 1. simpl.
    by rewrite decorated_objectIDField_named.
Qed.

Lemma computeFieldsCollection_sample_invariant (data : Data RawValue)
    (requestContext : option string) (options : Options RawValue)
    (props : RawSample RawValue) (res : option (list element)) :
  metadata data ≫= fields = None ->
  inspected_sample data options = Some props ->
  NoDup props.*1 ->
  requestContext = Some "layer" \/ "OBJECTID" ∈ props.*1 ->
  snd (computeFieldsCollection detectType esriTypeMap templates data
         requestContext options) = Ok res ->
  exists a, res = Some a /\ oid_first a.
Proof.
  intros Hmd Hsample Hnd Hcond.
  rewrite computeFieldsCollection_sample by assumption. rewrite Hsample.
  cbn [snd]. unfold mbind, result_bind, mret, result_ret.
  destruct (computeFieldsFromProperties detectType esriTypeMap templates
              (Some props) requestContext) as [r|e] eqn:Hr; [|discriminate].
  destruct (computeFieldsFromProperties_invariant _ _ _ Hnd Hcond Hr)
    as (a & -> & Ha).
  intros [= <-]. eauto.
Qed.

Lemma computeFieldsCollection_metadata_invariant (data : Data RawValue)
    (requestContext : option string) (options : Options RawValue)
    (metadataFields : list MetadataField) (res : option (list element)) :
  metadata data ≫= fields = Some metadataFields ->
  (count_if (field_named "OBJECTID") metadataFields <= 1)%nat ->
  lets_through "OBJECTID" (outFields options) = true ->
  snd (computeFieldsCollection detectType esriTypeMap templates data
         requestContext options) = Ok res ->
  exists a, res = Some a /\ oid_first a.
Proof.
  intros Hmd Hle Hthrough.
  rewrite (computeFieldsCollection_metadata _ _ _ _ Hmd).
  unfold mbind, result_bind, mret, result_ret.
  destruct (array_map _ _) as [fs|e] eqn:Hmap; [|discriminate].
  intros [= <-]. eexists. split; [reflexivity|]. apply oidFirst_one.
  apply array_map_Ok in Hmap.
  rewrite <- (count_requested metadataFields (outFields options) Hle Hthrough).
  symmetry. eapply count_if_Forall2; [|exact Hmap].
  intros f o Ho. simpl in Ho. symmetry.
  by apply (computeFieldObject_is_named esriTypeMap templates) in Ho.
Qed.

(** C1 (as amended): the identifier template being named [OBJECTID], a
    returned collection has exactly one element named [OBJECTID], at index 0,
    in these cases: [computeFieldsFromProperties] on a sample (an object, so
    with distinct keys) in the [layer] context or with a key [OBJECTID];
    [computeFieldsCollection] without metadata fields, under the same
    condition on the sample it inspects; [computeFieldsCollection] with
    metadata fields of which at most one is named [OBJECTID], when [outFields]
    is absent, empty, the wild card, or lists [OBJECTID]. *)
Theorem OBJECTID_first :
  (forall (props : RawSample RawValue) requestContext r,
     NoDup props.*1 ->
     requestContext = Some "layer" \/ "OBJECTID" ∈ props.*1 ->
     computeFieldsFromProperties detectType esriTypeMap templates (Some props)
       requestContext = Ok r ->
     exists a, r = Labeled "OBJECTID" a /\ oid_first a) /\
  (forall (data : Data RawValue) requestContext options props res,
     metadata data ≫= fields = None ->
     inspected_sample data options = Some props ->
     NoDup props.*1 ->
     requestContext = Some "layer" \/ "OBJECTID" ∈ props.*1 ->
     snd (computeFieldsCollection detectType esriTypeMap templates data
            requestContext options) = Ok res ->
     exists a, res = Some a /\ oid_first a) /\
  (forall (data : Data RawValue) requestContext options metadataFields res,
     metadata data ≫= fields = Some metadataFields ->
     (count_if (field_named "OBJECTID") metadataFields <= 1)%nat ->
     lets_through "OBJECTID" (outFields options) = true ->
     snd (computeFieldsCollection detectType esriTypeMap templates data
            requestContext options) = Ok res ->
     exists a, res = Some a /\ oid_first a).
Proof.
  split; [|split].
  - apply computeFieldsFromProperties_invariant.
  - apply computeFieldsCollection_sample_invariant.
  - apply computeFieldsCollection_metadata_invariant.
Qed.

End Collection.

(** ** Discrepancy warnings *)

Section Discrepancies.

Context {RawValue : Type}.
Variable detectType : RawValue -> string.

(** The property of a given name is found with its detected type. *)
Lemma find_feature_field (props : RawSample RawValue) (k : string) (v : RawValue) :
  NoDup props.*1 -> (k, v) ∈ props ->
  List.find (fun ff : string * string => bool_decide (fst ff = k))
    ((fun '(name, v) => (name, detectType v)) <$> props)
  = Some (k, detectType v).
Proof.
  induction props as [|[k' v'] props IH]; [by intros _ ?%elem_of_nil|].
  rewrite fmap_cons. intros [Hk' Hnd]%NoDup_cons Hin. simpl in Hk'.
  rewrite fmap_cons. cbn [List.find fst].
  apply elem_of_cons in Hin as [[= <- <-]|Hin].
  - by rewrite (bool_decide_eq_true_2 (k = k)).
  - rewrite bool_decide_eq_false_2; [by apply IH|].
    intros ->. apply Hk'. apply list_elem_of_fmap. by exists (k, v).
Qed.

(** What the loop body writes for one metadata field. *)
Lemma warnings_of_field (metadataFields : list MetadataField)
    (props : RawSample RawValue) (w : warning) :
  w ∈ warnOnMetadataFieldDiscrepencies detectType metadataFields props <->
  exists f, f ∈ metadataFields /\
    w ∈ match List.find (fun ff : string * string =>
                           bool_decide (fst ff = field_name f))
                ((fun '(name, v) => (name, detectType v)) <$> props) with
        | None => [NotFound (field_name f) (field_type_property f)]
        | Some featureField =>
            if negb (bool_decide (field_name f = "OBJECTID")) &&
               negb (bool_decide (field_type f = Some "Date") &&
                     bool_decide (snd featureField = "Integer")) &&
               negb (bool_decide (field_type f = Some "Double") &&
                     bool_decide (snd featureField = "Integer")) &&
               negb (bool_decide (field_type f = Some (snd featureField)))
            then [TypeMismatch (field_name f) (field_type_property f)
                    (fst featureField) (snd featureField)]
            else []
        end.
Proof.
  unfold warnOnMetadataFieldDiscrepencies.
  rewrite list_elem_of_In, in_flat_map. split.
  - intros (f & Hf & Hw). exists f. by rewrite !list_elem_of_In.
  - intros (f & Hf & Hw). exists f. by rewrite <- !list_elem_of_In.
Qed.

(** C4: for a metadata field and a property of the sample of the same name,
    [warnOnMetadataFieldDiscrepencies] writes the type-mismatch warning of
    that field and property if and only if the field is not named
    [OBJECTID], its metadata type is not the detected type of the property,
    and the pair of types is neither [Date] against [Integer] nor [Double]
    against [Integer]. *)
Theorem type_mismatch_warning (metadataFields : list MetadataField)
    (props : RawSample RawValue) (f : MetadataField) (v : RawValue) :
  NoDup props.*1 ->
  f ∈ metadataFields ->
  (field_name f, v) ∈ props ->
  TypeMismatch (field_name f) (field_type_property f) (field_name f)
    (detectType v)
    ∈ warnOnMetadataFieldDiscrepencies detectType metadataFields props
  <->
  field_name f <> "OBJECTID" /\
  field_type f <> Some (detectType v) /\
  ~ (field_type f = Some "Date" /\ detectType v = "Integer") /\
  ~ (field_type f = Some "Double" /\ detectType v = "Integer").
Proof.
  intros Hnd Hf Hv. rewrite warnings_of_field.
  assert (forall g, field_name g = field_name f ->
    field_type_property g = field_type_property f ->
    (TypeMismatch (field_name f) (field_type_property f) (field_name f)
       (detectType v)
       ∈ match List.find (fun ff : string * string =>
                            bool_decide (fst ff = field_name g))
                 ((fun '(name, v) => (name, detectType v)) <$> props) with
         | None => [NotFound (field_name g) (field_type_property g)]
         | Some featureField =>
             if negb (bool_decide (field_name g = "OBJECTID")) &&
                negb (bool_decide (field_type g = Some "Date") &&
                      bool_decide (snd featureField = "Integer")) &&
                negb (bool_decide (field_type g = Some "Double") &&
                      bool_decide (snd featureField = "Integer")) &&
                negb (bool_decide (field_type g = Some (snd featureField)))
             then [TypeMismatch (field_name g) (field_type_property g)
                     (fst featureField) (snd featureField)]
             else []
         end) <->
    field_name f <> "OBJECTID" /\
    field_type f <> Some (detectType v) /\
    ~ (field_type f = Some "Date" /\ detectType v = "Integer") /\
    ~ (field_type f = Some "Double" /\ detectType v = "Integer")) as Hbody.
  { intros g Hname Hprop.
    assert (field_type g = field_type f) as Htype
      by (unfold field_type; by rewrite Hprop).
    rewrite Hname, Htype, Hprop.
    rewrite (find_feature_field props (field_name f) v Hnd Hv). cbn [fst snd].
    repeat case_bool_decide; simpl;
      rewrite ?elem_of_nil, ?list_elem_of_singleton; intuition congruence. }
  split.
  - intros (g & Hg & Hw).
    assert (field_name g = field_name f /\
            field_type_property g = field_type_property f) as [Hname Htype].
    { destruct (List.find _ _) as [ff|] in Hw.
      - destruct (_ && _) in Hw; [|by apply elem_of_nil in Hw].
        apply list_elem_of_singleton in Hw. injection Hw as Hn Ht _ _.
        by split.
      - apply list_elem_of_singleton in Hw. discriminate. }
    by apply (Hbody g Hname Htype).
  - intros H. exists f. split; [assumption|]. by apply (Hbody f).
Qed.

End Discrepancies.

(** ** Missing types and missing samples *)

Section Failures.

Context {RawValue : Type}.
Variable detectType : RawValue -> string.
Variable esriTypeMap : string -> result string.
Variable templates : Templates.

(** C10 (as amended): for a name other than [OBJECTID], [computeFieldObject]
    throws a [TypeError] when the type is missing; and a call of
    [computeFieldsCollection] with metadata fields fails whenever a field of
    that name without a type is among the requested fields, that is, among
    the metadata fields that the [outFields] filter keeps. *)
Theorem missing_type_throws (name : string) (alias : option string)
    (length : option Z) (context : option string) :
  name <> "OBJECTID" ->
  computeFieldObject esriTypeMap templates name alias None length context
  = Err TypeError /\
  forall (data : Data RawValue) requestContext options metadataFields f,
    metadata data ≫= fields = Some metadataFields ->
    f ∈ computeFieldsFromMetadata metadataFields (outFields options) ->
    field_name f = name -> field_type f = None ->
    exists e,
      snd (computeFieldsCollection detectType esriTypeMap templates data
             requestContext options) = Err e.
Proof.
  intros Hname. split; [by apply computeFieldObject_no_type|].
  intros data requestContext options metadataFields f Hmd Hf Hfn Hft.
  rewrite (computeFieldsCollection_metadata _ _ _ _ _ _ _ Hmd).
  destruct (array_map_Err
              (fun f => computeFieldObject esriTypeMap templates (field_name f)
                          (field_alias f) (field_type f) (field_length f)
                          requestContext)
              _ f TypeError Hf) as [e He].
  { rewrite Hfn, Hft. by apply computeFieldObject_no_type. }
  exists e. by rewrite He.
Qed.

(** C2 (what the code does): without a sample, [computeFieldsFromProperties]
    returns the empty array; [computeFieldsCollection] reads the property
    [fields] of that array and returns [undefined], not an array, for the
    empty payload as for a payload with empty metadata, no feature and no
    statistics record. *)
Theorem nothing_to_inspect (requestContext : option string)
    (options_outFields : option string) :
  computeFieldsFromProperties detectType esriTypeMap templates None requestContext
  = Ok (BareArray []) /\
  computeFieldsCollection detectType esriTypeMap templates
    {| metadata := None; features := None; statistics := None |}
    requestContext
    {| attributeSample := None; outFields := options_outFields |}
  = ([], Ok None) /\
  computeFieldsCollection detectType esriTypeMap templates
    {| metadata := Some {| fields := None |}; features := Some [];
       statistics := Some [] |}
    requestContext
    {| attributeSample := None; outFields := options_outFields |}
  = ([], Ok None).
Proof. repeat split. Qed.

End Failures.

(** ** The caller's metadata fields are left alone *)

Module HeapFacts.

Import Heap.

Lemma read_array_subseteq (h h' : heap) (a : loc) (elems : list loc) :
  h ⊆ h' -> read_array h a = Some elems -> read_array h' a = Some elems.
Proof.
  unfold read_array. intros Hsub H.
  destruct (h !! a) as [c|] eqn:Ha; [|discriminate].
  by rewrite (lookup_weaken _ _ _ _ Ha Hsub).
Qed.

Lemma read_object_subseteq (h h' : heap) (l : loc) (o : MetadataField) :
  h ⊆ h' -> read_object h l = Some o -> read_object h' l = Some o.
Proof.
  unfold read_object. intros Hsub H.
  destruct (h !! l) as [c|] eqn:Hl; [|discriminate].
  by rewrite (lookup_weaken _ _ _ _ Hl Hsub).
Qed.

Lemma read_objects_subseteq (h h' : heap) (elems : list loc)
    (fs : list MetadataField) :
  h ⊆ h' -> mapM (read_object h) elems = Some fs ->
  mapM (read_object h') elems = Some fs.
Proof.
  intros Hsub. rewrite !mapM_Some. intros H.
  eapply Forall2_impl; [exact H|].
  intros l o. by apply read_object_subseteq.
Qed.

Lemma alloc_fresh (h : heap) (c : cell) :
  exists l, alloc c h = Some (l, <[l := c]> h) /\ h !! l = None.
Proof.
  unfold alloc. eexists. split; [reflexivity|].
  apply not_elem_of_dom, is_fresh.
Qed.

Lemma find_from_spec (h : heap) (s : string) (elems : list loc)
    (fs : list MetadataField) :
  mapM (read_object h) elems = Some fs ->
  exists r, find_from h s elems = Some r /\
    (is_Some r <-> is_Some (find_field s fs)).
Proof.
  rewrite mapM_Some. intros H. induction H as [|l o elems fs Hl _ IH].
  - exists None. split; [reflexivity|]. unfold find_field. simpl.
    split; intros [? [=]].
  - cbn [find_from]. rewrite Hl. simpl. unfold find_field. cbn [List.find].
    case_bool_decide; [|exact IH].
    exists (Some l). split; [reflexivity|]. split; eauto.
Qed.

Lemma filter_from_spec (h : heap) (p : MetadataField -> bool) (elems : list loc)
    (fs : list MetadataField) :
  mapM (read_object h) elems = Some fs ->
  exists kept, filter_from h p elems = Some kept /\
    mapM (read_object h) kept = Some (List.filter p fs).
Proof.
  rewrite mapM_Some. intros H. induction H as [|l o elems fs Hl _ IH].
  - exists []. split; reflexivity.
  - destruct IH as (kept & Hkept & Hread). cbn [filter_from List.filter].
    rewrite Hl. simpl. rewrite Hkept. simpl.
    destruct (p o).
    + exists (l :: kept). split; [reflexivity|]. simpl. rewrite Hl. simpl.
      by rewrite Hread.
    + exists kept. split; [reflexivity|assumption].
Qed.

Lemma clone_spec (h : heap) (a : loc) (elems : list loc) :
  read_array h a = Some elems ->
  exists r, clone a h = Some (r, <[r := Array elems]> h) /\ h !! r = None.
Proof.
  intros Ha. unfold clone, mbind, M_bind, get_array. rewrite Ha. simpl.
  apply alloc_fresh.
Qed.

Lemma push_spec (h : heap) (a l : loc) (elems : list loc) :
  read_array h a = Some elems ->
  push a l h = Some (tt, <[a := Array (elems ++ [l])]> h).
Proof.
  intros Ha. unfold push, mbind, M_bind, get_array, set_array. rewrite Ha. simpl.
  rewrite Ha. reflexivity.
Qed.

Lemma read_array_insert (h : heap) (a : loc) (elems : list loc) :
  read_array (<[a := Array elems]> h) a = Some elems.
Proof. unfold read_array. by rewrite lookup_insert_eq. Qed.

Lemma contents_insert_fresh (h : heap) (r : loc) (elems : list loc) fs :
  h !! r = None -> mapM (read_object h) elems = Some fs ->
  contents (<[r := Array elems]> h) r = Some fs.
Proof.
  intros Hr Hfs. unfold contents. rewrite read_array_insert. simpl.
  eapply read_objects_subseteq; [|exact Hfs]. by apply insert_subseteq.
Qed.

(** The state after [_.clone] and the conditional [push]: whatever the
    function does next starts from a store that extends the caller's. *)
Lemma completed_spec (h : heap) (a : loc) (elems : list loc) (fs : list MetadataField) :
  read_array h a = Some elems -> mapM (read_object h) elems = Some fs ->
  exists r h2 elems2,
    h ⊆ h2 /\ h !! r = None /\
    h2 !! r = Some (Array elems2) /\
    mapM (read_object h2) elems2 = Some (with_objectid fs) /\
    forall B (k : loc -> M B),
      (responseFields ← clone a;
       found ← find "OBJECTID" a;
       _ ← match found with
           | Some _ => mret tt
           | None =>
               o ← alloc (Object {| field_name := "OBJECTID"; field_alias := None;
                                    field_type_property := NoType; field_length := None |});
               push responseFields o
           end;
       k responseFields) h = k r h2.
Proof.
  intros Ha Hfs.
  destruct (clone_spec h a elems Ha) as (r & Hclone & Hr).
  set (h1 := <[r := Array elems]> h) in *.
  assert (h ⊆ h1) as Hsub1 by by apply insert_subseteq.
  pose proof (read_array_subseteq _ _ _ _ Hsub1 Ha) as Ha1.
  pose proof (read_objects_subseteq _ _ _ _ Hsub1 Hfs) as Hfs1.
  destruct (find_from_spec h1 "OBJECTID" elems fs Hfs1) as (found & Hfound & Hiff).
  assert (find "OBJECTID" a h1 = Some (found, h1)) as Hfind.
  { unfold find. rewrite Ha1. simpl. by rewrite Hfound. }
  unfold with_objectid.
  destruct found as [l|].
  - destruct (proj1 Hiff (mk_is_Some _ _ eq_refl)) as [f ->].
    exists r, h1, elems.
    split; [assumption|]. split; [assumption|].
    split; [apply lookup_insert_eq|]. split; [assumption|].
    intros B k. unfold mbind, M_bind. rewrite Hclone, Hfind. reflexivity.
  - destruct (find_field "OBJECTID" fs) as [f|] eqn:Hff.
    { destruct (proj2 Hiff (mk_is_Some _ _ eq_refl)) as [? [=]]. }
    destruct (alloc_fresh h1 (Object objectid_entry)) as (o & Halloc & Ho).
    set (h1' := <[o := Object objectid_entry]> h1) in *.
    assert (h1 ⊆ h1') as Hsub1' by by apply insert_subseteq.
    assert (read_array h1' r = Some elems) as Hr1'.
    { eapply read_array_subseteq; [exact Hsub1'|]. apply read_array_insert. }
    assert (o <> r) as Hor.
    { intros ->. unfold h1 in Ho. by rewrite lookup_insert_eq in Ho. }
    exists r, (<[r := Array (elems ++ [o])]> h1'), (elems ++ [o]).
    split; [|split; [|split; [|split]]].
    + apply map_subseteq_spec. intros l c Hl.
      assert (l <> r) by congruence.
      rewrite lookup_insert_ne by congruence.
      eapply lookup_weaken; [|exact Hsub1'].
      eapply lookup_weaken; [|exact Hsub1]. exact Hl.
    + assumption.
    + apply lookup_insert_eq.
    + rewrite mapM_Some. apply Forall2_app.
      * apply mapM_Some in Hfs1. eapply Forall2_impl; [exact Hfs1|].
        intros l f Hl. unfold read_object in *.
        destruct (h1 !! l) as [c|] eqn:Hl1; [|discriminate].
        assert (l <> r).
        { intros ->. unfold h1 in Hl1. rewrite lookup_insert_eq in Hl1.
          injection Hl1 as <-. discriminate. }
        rewrite lookup_insert_ne by congruence.
        by rewrite (lookup_weaken _ _ _ _ Hl1 Hsub1').
      * constructor; [|constructor]. unfold read_object.
        rewrite lookup_insert_ne by congruence.
        unfold h1'. by rewrite lookup_insert_eq.
    + intros B k. unfold mbind, M_bind. rewrite Hclone, Hfind.
      change (alloc _ h1) with (alloc (Object objectid_entry) h1).
      rewrite Halloc. fold h1'.
      by rewrite (push_spec _ _ _ _ Hr1').
Qed.

End HeapFacts.

Import HeapFacts.

(** C8: when the caller's reference points to an array of metadata fields,
    [computeFieldsFromMetadata] returns; every cell that the store held
    before the call, the caller's array and each of its elements among them,
    holds the same value after it; the array it returns is a new one, and it
    holds the requested fields. *)
Theorem computeFieldsFromMetadata_leaves_input
    (h : Heap.heap) (metadataFields : Heap.loc) (outFieldsParam : option string)
    (fs : list MetadataField) :
  Heap.contents h metadataFields = Some fs ->
  exists responseFields h',
    Heap.computeFieldsFromMetadata metadataFields outFieldsParam h
    = Some (responseFields, h') /\
    (forall l c, h !! l = Some c -> h' !! l = Some c) /\
    Heap.contents h' metadataFields = Some fs /\
    h !! responseFields = None /\
    Heap.contents h' responseFields
    = Some (computeFieldsFromMetadata fs outFieldsParam).
Proof.
  unfold Heap.contents at 1. intros Hc.
  destruct (Heap.read_array h metadataFields) as [elems|] eqn:Ha; [|discriminate].
  simpl in Hc.
  destruct (completed_spec h metadataFields elems fs Ha Hc)
    as (r & h2 & elems2 & Hsub & Hr & Hr2 & Hfs2 & Hrun).
  unfold Heap.computeFieldsFromMetadata. rewrite Hrun.
  rewrite computeFieldsFromMetadata_unfold.
  assert (forall h', h ⊆ h' -> Heap.contents h' metadataFields = Some fs) as Hkeep.
  { intros h' Hsub'. unfold Heap.contents.
    rewrite (read_array_subseteq _ _ _ _ Hsub' Ha). simpl.
    by eapply read_objects_subseteq. }
  unfold unfiltered.
  destruct (truthy_string outFieldsParam && negb (bool_decide (outFieldsParam = Some "*"))) eqn:Hf.
  - replace (negb (truthy_string outFieldsParam) || bool_decide (outFieldsParam = Some "*")) with false
      by (destruct (truthy_string outFieldsParam), (bool_decide (outFieldsParam = Some "*")); done).
    destruct (filter_from_spec h2
      (fun f => bool_decide (field_name f ∈ split_commas (default "" outFieldsParam)))
      elems2 _ Hfs2) as (kept & Hkept & Hread).
    destruct (alloc_fresh h2 (Heap.Array kept)) as (r' & Halloc & Hr').
    assert (h2 ⊆ <[r' := Heap.Array kept]> h2) as Hsub' by by apply insert_subseteq.
    exists r', (<[r' := Heap.Array kept]> h2).
    split; [|split; [|split; [|split]]].
    + unfold Heap.filter, Heap.read_array. rewrite Hr2. simpl. rewrite Hkept. simpl.
      exact Halloc.
    + intros l c Hl. eapply lookup_weaken; [|exact Hsub'].
      eapply lookup_weaken; [exact Hl|exact Hsub].
    + apply Hkeep. by etrans.
    + destruct (h !! r') as [c|] eqn:Hhr'; [|reflexivity].
      rewrite (lookup_weaken _ _ _ _ Hhr' Hsub) in Hr'. discriminate.
    + by apply contents_insert_fresh.
  - replace (negb (truthy_string outFieldsParam) || bool_decide (outFieldsParam = Some "*")) with true
      by (destruct (truthy_string outFieldsParam), (bool_decide (outFieldsParam = Some "*")); done).
    exists r, h2. split; [reflexivity|]. split; [|split; [|split]].
    + intros l c Hl. eapply lookup_weaken; [exact Hl|exact Hsub].
    + by apply Hkeep.
    + assumption.
    + unfold Heap.contents, Heap.read_array. rewrite Hr2. exact Hfs2.
Qed.

(** * The properties on concrete inputs *)

Module Run.

Import Sample.

Definition field_a : MetadataField :=
  {| field_name := "a"; field_alias := None;
     field_type_property := NoType; field_length := None |}.

Definition field_b : MetadataField :=
  {| field_name := "b"; field_alias := Some "B";
     field_type_property := TypeLabel "String"; field_length := Some 10 |}.

Definition field_oid : MetadataField :=
  {| field_name := "OBJECTID"; field_alias := None;
     field_type_property := TypeLabel "Integer"; field_length := None |}.

(** The field object of the sample property [a: 1]. *)
Definition object_a : object :=
  {[ "name" := Str "a"; "type" := Str "esriFieldTypeInteger";
     "alias" := Str "a"; "length" := Undefined ]}.

(** A store with the array [[field_b]] at location 1. *)
Definition store : Heap.heap :=
  {[ 1%positive := Heap.Array [2%positive]; 2%positive := Heap.Object field_b ]}.

(** A payload whose metadata declares [a] without a type, and [OBJECTID]. *)
Definition payload : Data raw :=
  {| metadata := Some {| fields := Some [field_a; field_oid] |};
     features := None; statistics := None |}.

Definition no_options : Options raw :=
  {| attributeSample := None; outFields := None |}.

Definition only_OBJECTID : Options raw :=
  {| attributeSample := None; outFields := Some "OBJECTID" |}.

End Run.

(** C1, on the sample [{ a: 1 }] in the [layer] context: the identifier
    field is added and comes first. *)
Lemma OBJECTID_first_layer :
  exists a,
    computeFieldsFromProperties Sample.detectType Sample.esriTypeMap
      Sample.templates (Some [("a", Sample.RInt 1)]) (Some "layer")
    = Ok (Labeled "OBJECTID" a) /\ oid_first a.
Proof.
  destruct (OBJECTID_first Sample.detectType Sample.esriTypeMap Sample.templates
              eq_refl) as [Hprops _].
  destruct (Hprops [("a", Sample.RInt 1)] (Some "layer") _
              (NoDup_singleton "a") (or_introl eq_refl) eq_refl) as (a & Ha & Hfirst).
  exists a. split; [by rewrite <- Ha|assumption].
Defined.

(** C1 fails as stated: outside the [layer] context the sample [{ a: 1 }]
    gives a collection with the single field [a] and no identifier field. *)
Lemma OBJECTID_absent_outside_layer :
  computeFieldsFromProperties Sample.detectType Sample.esriTypeMap
    Sample.templates (Some [("a", Sample.RInt 1)]) None
  = Ok (Labeled "OBJECTID" [Some Run.object_a]) /\
  count_if (element_named "OBJECTID") [Some Run.object_a] = 0%nat /\
  ~ oid_first [Some Run.object_a].
Proof.
  split; [|split].
  - vm_compute. reflexivity.
  - reflexivity.
  - intros [Hcount _]. vm_compute in Hcount. discriminate.
Qed.

(** C3, on the metadata [[b]] and the parameter [b , OBJECTID]. *)
Lemma adds_OBJECTID_when_listed :
  exists kept,
    computeFieldsFromMetadata [Run.field_b] (Some "b , OBJECTID")
    = kept ++ [objectid_entry] /\
    sublist kept [Run.field_b] /\
    count_if (field_named "OBJECTID")
      (computeFieldsFromMetadata [Run.field_b] (Some "b , OBJECTID")) = 1%nat.
Proof.
  apply (computeFieldsFromMetadata_adds_OBJECTID [Run.field_b]
           (Some "b , OBJECTID")).
  repeat constructor. vm_compute. discriminate.
Defined.

(** C3 fails as stated: with [outFields] set to [b], the entry added for
    [OBJECTID] is filtered out again. *)
Lemma OBJECTID_filtered_out :
  Forall (fun f => field_name f <> "OBJECTID") [Run.field_b] /\
  computeFieldsFromMetadata [Run.field_b] (Some "b") = [Run.field_b] /\
  count_if (field_named "OBJECTID")
    (computeFieldsFromMetadata [Run.field_b] (Some "b")) = 0%nat.
Proof.
  split; [|split].
  - repeat constructor. vm_compute. discriminate.
  - reflexivity.
  - reflexivity.
Qed.

(** C4, on the metadata field [b] of type [String] and the sample
    [{ b: 1 }], detected as [Integer]: the warning is written. *)
Lemma type_mismatch_String_Integer :
  TypeMismatch "b" (TypeLabel "String") "b" "Integer"
    ∈ warnOnMetadataFieldDiscrepencies Sample.detectType
        [Run.field_a; Run.field_b] [("b", Sample.RInt 1)].
Proof.
  apply (proj2 (type_mismatch_warning Sample.detectType
                  [Run.field_a; Run.field_b] [("b", Sample.RInt 1)]
                  Run.field_b (Sample.RInt 1)
                  (NoDup_singleton "b")
                  (list_elem_of_further _ _ _ (list_elem_of_here _ _))
                  (list_elem_of_here _ _))).
  vm_compute. repeat split; try discriminate; intros [? ?]; discriminate.
Defined.

(** C5, on the metadata [[a; b]] and the parameter [OBJECTID , b]: the kept
    entries follow the metadata order. *)
Lemma filters_in_metadata_order :
  computeFieldsFromMetadata [Run.field_a; Run.field_b] (Some "OBJECTID , b")
  = [Run.field_b; objectid_entry].
Proof.
  rewrite (proj1 (computeFieldsFromMetadata_filters [Run.field_a; Run.field_b]
                    "OBJECTID , b" ltac:(discriminate) ltac:(discriminate))).
  reflexivity.
Defined.

(** C5 fails as stated: the empty string is a provided parameter other than
    the wild card, it parses to the one name [""], and yet every entry is
    kept. *)
Lemma empty_outFields_keeps_all :
  split_commas "" = [""] /\
  computeFieldsFromMetadata [Run.field_a] (Some "")
  = [Run.field_a; objectid_entry] /\
  List.filter (fun f => bool_decide (field_name f ∈ split_commas ""))
    (with_objectid [Run.field_a]) = [].
Proof. repeat split. Qed.

(** An explicit length 10 wins over the default of the type [Date]. *)
Lemma length_given :
  exists outputField,
    computeFieldObject Sample.esriTypeMap Sample.templates "x" None
      (Some "Date") (Some 10) (Some "layer") = Ok outputField /\
    outputField !! "length" = Some (Num 10).
Proof.
  apply (computeFieldObject_length Sample.esriTypeMap Sample.templates
           "x" None "Date" (Some 10) (Some "layer") "esriFieldTypeDate").
  - discriminate.
  - reflexivity.
Defined.

(** C6, at the input where the code departs from it: the length 0 is
    given, so it should win whatever the type, as the comment on line 78
    says ("Use field length if defined"); [length || ...] takes the defined
    0 for a missing length, and the field of type [String] gets the length
    128. *)
Lemma length_zero_is_replaced :
  exists outputField,
    computeFieldObject Sample.esriTypeMap Sample.templates "x" None
      (Some "String") (Some 0) None = Ok outputField /\
    outputField !! "length" = Some (Num 128) /\
    outputField !! "length" <> Some (Num 0).
Proof.
  eexists. split; [vm_compute; reflexivity|]. split; [reflexivity|].
  vm_compute. discriminate.
Qed.

(** C8, on a store that holds the array [[b]]. *)
Lemma leaves_input_on_store :
  exists responseFields h',
    Heap.computeFieldsFromMetadata 1%positive (Some "OBJECTID") Run.store
    = Some (responseFields, h') /\
    (forall l c, Run.store !! l = Some c -> h' !! l = Some c) /\
    Heap.contents h' 1%positive = Some [Run.field_b] /\
    Run.store !! responseFields = None /\
    Heap.contents h' responseFields
    = Some (computeFieldsFromMetadata [Run.field_b] (Some "OBJECTID")).
Proof.
  apply (computeFieldsFromMetadata_leaves_input Run.store 1%positive
           (Some "OBJECTID") [Run.field_b]).
  vm_compute. reflexivity.
Defined.

(** C9, in the absent context. *)
Lemma no_keys_no_context :
  computeFieldsFromProperties Sample.detectType Sample.esriTypeMap
    Sample.templates (Some []) None
  = Ok (Labeled "OBJECTID" [None]).
Proof.
  apply (computeFieldsFromProperties_no_keys Sample.detectType
           Sample.esriTypeMap Sample.templates None).
  discriminate.
Defined.

(** C10, on the metadata [[a; OBJECTID]] where [a] has no type. *)
Lemma typeless_field_fails :
  exists e,
    snd (computeFieldsCollection Sample.detectType Sample.esriTypeMap
           Sample.templates Run.payload None Run.no_options) = Err e.
Proof.
  apply (proj2 (missing_type_throws Sample.detectType Sample.esriTypeMap
                  Sample.templates "a" None None None ltac:(discriminate))
           Run.payload None Run.no_options [Run.field_a; Run.field_oid]
           Run.field_a eq_refl).
  - apply list_elem_of_here.
  - reflexivity.
  - reflexivity.
Defined.

(** C10 fails as stated: the same metadata with [outFields] set to
    [OBJECTID] is served, the field without a type being filtered out. *)
Lemma typeless_field_filtered_out :
  metadata Run.payload = Some {| fields := Some [Run.field_a; Run.field_oid] |} /\
  field_name Run.field_a <> "OBJECTID" /\
  field_type Run.field_a = None /\
  snd (computeFieldsCollection Sample.detectType Sample.esriTypeMap
         Sample.templates Run.payload None Run.only_OBJECTID)
  = Ok (Some [Some (objectIDField Sample.templates)]).
Proof.
  split; [reflexivity|]. split; [discriminate|]. split; [reflexivity|].
  vm_compute. reflexivity.
Qed.

(** * Further properties *)

(** ** More on arrays *)

Lemma array_map_Err_inv {A B} (f : A -> result B) (a : list A) (e : exn) :
  array_map f a = Err e -> exists x, x ∈ a /\ f x = Err e.
Proof.
  unfold array_map. induction a as [|x a IH]; simpl; [discriminate|].
  unfold mbind, result_bind, mret, result_ret in *.
  destruct (f x) as [y|e'] eqn:Hx.
  - destruct (mapM f a) as [k|e'] eqn:Ha; [discriminate|].
    intros [= ->]. destruct (IH eq_refl) as (z & Hz & Hfz).
    exists z. split; [by right|assumption].
  - intros [= ->]. exists x. split; [by left|assumption].
Qed.

Lemma array_map_total {A B} (f : A -> result B) (a : list A) :
  (exists b, array_map f a = Ok b) <-> Forall (fun x => exists y, f x = Ok y) a.
Proof.
  split.
  - intros [b Hb]. apply array_map_Ok in Hb.
    induction Hb; constructor; eauto.
  - intros H. destruct (array_map f a) as [b|e] eqn:Hmap; [eauto|].
    apply array_map_Err_inv in Hmap as (x & Hx & Hfx).
    rewrite Forall_forall in H. destruct (H x Hx) as [y Hy]. congruence.
Qed.

(** The first hit of a test splits the array. *)
Lemma existsb_first {A} (p : A -> bool) (a : list A) :
  existsb p a = true ->
  exists l1 x l2, a = l1 ++ x :: l2 /\ p x = true /\
    Forall (fun y => p y = false) l1.
Proof.
  induction a as [|y a IH]; [discriminate|]. simpl.
  destruct (p y) eqn:Hy.
  - intros _. exists [], y, a. repeat split; [assumption|constructor].
  - intros H. destruct (IH H) as (l1 & x & l2 & -> & Hx & H1).
    exists (y :: l1), x, l2. repeat split; [assumption|by constructor].
Qed.

Lemma existsb_false_Forall {A} (p : A -> bool) (a : list A) :
  existsb p a = false -> Forall (fun y => p y = false) a.
Proof.
  induction a as [|y a IH]; [constructor|]. simpl.
  intros [Hy Ha]%orb_false_iff. constructor; auto.
Qed.

(** Whatever the array holds, the reordering step keeps its fields: one of
    them comes first and the others follow in their order. *)
Lemma oidFirst_shape (a : list object) :
  a <> [] ->
  exists l1 x l2, a = l1 ++ x :: l2 /\
    oidFirst a = Some x :: (Some <$> (l1 ++ l2)) /\
    (is_named "OBJECTID" x = true /\
       Forall (fun y => is_named "OBJECTID" y = false) l1 \/
     l2 = [] /\ Forall (fun y => is_named "OBJECTID" y = false) a).
Proof.
  intros Hne. destruct (existsb (is_named "OBJECTID") a) eqn:Hex.
  - destruct (existsb_first _ _ Hex) as (l1 & x & l2 & -> & Hx & H1).
    exists l1, x, l2. split; [reflexivity|]. split; [by apply oidFirst_found|].
    by left.
  - apply existsb_false_Forall in Hex.
    destruct (exists_last Hne) as (l1 & x & ->).
    exists l1, x, []. split; [reflexivity|].
    split; [by rewrite app_nil_r; apply oidFirst_missing|]. by right.
Qed.

Lemma oidFirst_Permutation (a : list object) :
  a <> [] -> exists fs, oidFirst a = Some <$> fs /\ fs ≡ₚ a.
Proof.
  intros Hne. destruct (oidFirst_shape a Hne) as (l1 & x & l2 & -> & Heq & _).
  exists (x :: l1 ++ l2). split; [by rewrite Heq|].
  by rewrite Permutation_middle.
Qed.

(** ** More on field objects *)

Lemma lookup_field_literal (name esriType alias : string) (k : string) :
  ({[ "name" := Str name; "type" := Str esriType; "alias" := Str alias ]}
     : object) !! k
  = if bool_decide (k = "name") then Some (Str name)
    else if bool_decide (k = "type") then Some (Str esriType)
    else if bool_decide (k = "alias") then Some (Str alias)
    else None.
Proof.
  repeat case_bool_decide; subst; simplify_map_eq; reflexivity.
Qed.

Section FieldObjectContract.

Variable esriTypeMap : string -> result string.
Variable templates : Templates.

(** X1: The object built for a name other than [OBJECTID] carries that name and
    the mapped type; its alias is the alias argument, or the name when the
    alias is missing or empty; every property that the function does not
    write is the one of the field template. *)
Theorem computeFieldObject_contract (name : string) (alias : option string)
    (type : string) (len : option Z) (context : option string)
    (esriType : string) :
  name <> "OBJECTID" ->
  esriTypeMap (toLowerCase type) = Ok esriType ->
  exists o,
    computeFieldObject esriTypeMap templates name alias (Some type) len context
    = Ok o /\
    o !! "name" = Some (Str name) /\
    o !! "type" = Some (Str esriType) /\
    o !! "alias" = Some (Str (match alias with
                              | Some a => if decide (a = "") then name else a
                              | None => name
                              end)) /\
    forall k, k ∉ written_keys -> o !! k = field templates !! k.
Proof.
  intros Hname Hmap. eexists. split.
  { apply computeFieldObject_other; eassumption. }
  cbv zeta.
  assert (forall (o : object) k, k <> "editable" -> k <> "nullable" ->
    (if bool_decide (context = Some "layer") then
       Object_assign o {[ "editable" := Bool false; "nullable" := Bool false ]}
     else o) !! k = o !! k) as Hlayer.
  { intros o k H1 H2. destruct (bool_decide _); [|reflexivity].
    by apply lookup_layer_decoration. }
  assert ((if truthy_string alias then default "" alias else name)
          = match alias with
            | Some a => if decide (a = "") then name else a
            | None => name
            end) as ->.
  { destruct alias as [a|]; [|reflexivity]. unfold truthy_string, default.
    destruct (String.eqb_spec a ""), (decide (a = "")); simpl; congruence. }
  repeat split.
  - rewrite Hlayer by discriminate. rewrite lookup_insert_ne by discriminate.
    unfold Object_assign. apply lookup_union_Some_l.
    by rewrite lookup_field_literal.
  - rewrite Hlayer by discriminate. rewrite lookup_insert_ne by discriminate.
    unfold Object_assign. apply lookup_union_Some_l.
    by rewrite lookup_field_literal.
  - rewrite Hlayer by discriminate. rewrite lookup_insert_ne by discriminate.
    unfold Object_assign. apply lookup_union_Some_l.
    by rewrite lookup_field_literal.
  - intros k Hk. unfold written_keys in Hk.
    rewrite !not_elem_of_cons in Hk.
    destruct Hk as (? & ? & ? & ? & ? & ? & _).
    rewrite Hlayer by assumption. rewrite lookup_insert_ne by congruence.
    unfold Object_assign. apply lookup_union_r.
    rewrite lookup_field_literal.
    by rewrite !bool_decide_eq_false_2 by assumption.
Qed.

(** X2: A field named [OBJECTID] never fails, whatever its alias, type and
    length, a missing type included: the object is the identifier template,
    apart from the two properties of the [layer] decoration. *)
Theorem computeFieldObject_identifier (alias type : option string)
    (len : option Z) (context : option string) :
  exists o,
    computeFieldObject esriTypeMap templates "OBJECTID" alias type len context
    = Ok o /\
    forall k, k <> "editable" -> k <> "nullable" ->
      o !! k = objectIDField templates !! k.
Proof.
  rewrite computeFieldObject_OBJECTID. eexists. split; [reflexivity|].
  intros k H1 H2. destruct (bool_decide _); [|reflexivity].
  by apply lookup_layer_decoration.
Qed.

Lemma decorated_layer (o : object) :
  decorated (Object_assign o
               {[ "editable" := Bool false; "nullable" := Bool false ]}).
Proof.
  unfold decorated, Object_assign. split; apply lookup_union_Some_l.
  - apply lookup_insert_eq.
  - rewrite lookup_insert_ne by discriminate. apply lookup_singleton_eq.
Qed.

(** The final step of the function, seen from its result. *)
Lemma computeFieldObject_layer_step (name : string) (alias type : option string)
    (len : option Z) (context : option string) (o : object) :
  computeFieldObject esriTypeMap templates name alias type len context = Ok o ->
  exists o0,
    computeFieldObject esriTypeMap templates name alias type len None = Ok o0 /\
    o = if bool_decide (context = Some "layer") then
          Object_assign o0
            {[ "editable" := Bool false; "nullable" := Bool false ]}
        else o0.
Proof.
  unfold computeFieldObject. unfold mbind, result_bind, mret, result_ret.
  destruct (if bool_decide (name = "OBJECTID") then _ else _) as [o0|e];
    [|discriminate].
  intros [= <-]. exists o0. split; [|reflexivity].
  by rewrite (bool_decide_eq_false_2 (None = Some "layer")).
Qed.

(** X3: In the [layer] context every field object that is returned has
    [editable: false] and [nullable: false], the identifier field included;
    in any other context the two properties are what the call without a
    context gives them, that is, what the template holds. *)
Theorem computeFieldObject_decoration (name : string) (alias type : option string)
    (len : option Z) (context : option string) (o : object) :
  computeFieldObject esriTypeMap templates name alias type len context = Ok o ->
  if bool_decide (context = Some "layer") then decorated o
  else computeFieldObject esriTypeMap templates name alias type len None = Ok o.
Proof.
  intros Ho. destruct (computeFieldObject_layer_step _ _ _ _ _ _ Ho)
    as (o0 & Ho0 & ->).
  destruct (bool_decide _); [apply decorated_layer|assumption].
Qed.

(** For a name other than [OBJECTID] the name of the object does not depend
    on the templates. *)
Lemma computeFieldObject_name_other (name : string) (alias type : option string)
    (len : option Z) (context : option string) (o : object) :
  name <> "OBJECTID" ->
  computeFieldObject esriTypeMap templates name alias type len context = Ok o ->
  o !! "name" = Some (Str name).
Proof.
  intros Hname Ho. destruct type as [type|];
    [|by rewrite computeFieldObject_no_type in Ho].
  destruct (esriTypeMap (toLowerCase type)) as [esriType|e] eqn:Hmap.
  - rewrite (computeFieldObject_other _ _ _ _ _ _ _ esriType) in Ho
      by assumption.
    injection Ho as <-. cbv zeta.
    assert (forall (o : object),
      (if bool_decide (context = Some "layer") then
         Object_assign o {[ "editable" := Bool false; "nullable" := Bool false ]}
       else o) !! "name" = o !! "name") as ->.
    { intros o. destruct (bool_decide _); [|reflexivity].
      by apply lookup_layer_decoration. }
    rewrite lookup_insert_ne by discriminate.
    unfold Object_assign. apply lookup_union_Some_l.
    by rewrite lookup_field_literal.
  - unfold computeFieldObject in Ho.
    rewrite (bool_decide_eq_false_2 (name = "OBJECTID")) in Ho by assumption.
    rewrite Hmap in Ho. discriminate.
Qed.

Lemma computeFieldObject_not_named (name : string) (alias type : option string)
    (len : option Z) (context : option string) (o : object) :
  name <> "OBJECTID" ->
  computeFieldObject esriTypeMap templates name alias type len context = Ok o ->
  is_named "OBJECTID" o = false.
Proof.
  intros Hname Ho. unfold is_named.
  rewrite (computeFieldObject_name_other _ _ _ _ _ _ Hname Ho).
  apply bool_decide_eq_false_2. congruence.
Qed.

(** When a field object cannot be built: the name is not [OBJECTID], and
    the type is missing ([TypeError]) or [esriTypeMap] throws on it. *)
Lemma computeFieldObject_Err (name : string) (alias type : option string)
    (len : option Z) (context : option string) (e : exn) :
  computeFieldObject esriTypeMap templates name alias type len context = Err e <->
  name <> "OBJECTID" /\
  (type = None /\ e = TypeError \/
   exists ty, type = Some ty /\ esriTypeMap (toLowerCase ty) = Err e).
Proof.
  destruct (decide (name = "OBJECTID")) as [->|Hname].
  - rewrite computeFieldObject_OBJECTID. split; [discriminate|].
    by intros [? _].
  - destruct type as [ty|].
    + destruct (esriTypeMap (toLowerCase ty)) as [esriType|e'] eqn:Hmap.
      * rewrite (computeFieldObject_other _ _ _ _ _ _ _ esriType) by assumption.
        split; [discriminate|].
        intros [_ [[[=] _]|(ty' & [= <-] & H)]]. congruence.
      * unfold computeFieldObject.
        rewrite (bool_decide_eq_false_2 (name = "OBJECTID")) by assumption.
        rewrite Hmap. simpl. split.
        -- intros [= ->]. split; [assumption|]. right. eauto.
        -- intros [_ [[[=] _]|(ty' & [= <-] & H)]]. congruence.
    + rewrite computeFieldObject_no_type by assumption. split.
      * intros [= <-]. split; [assumption|]. by left.
      * intros [_ [[_ ->]|(ty' & [=] & _)]]. reflexivity.
Qed.

End FieldObjectContract.

(** ** More on collections *)

Section CollectionContract.

Context {RawValue : Type}.
Variable detectType : RawValue -> string.
Variable esriTypeMap : string -> result string.
Variable templates : Templates.

Lemma computeFieldObject_Ok (name : string) (alias type : option string)
    (len : option Z) (context : option string) :
  (exists o, computeFieldObject esriTypeMap templates name alias type len context
             = Ok o) <->
  name = "OBJECTID" \/ exists ty, type = Some ty /\ accepted esriTypeMap ty.
Proof.
  destruct (computeFieldObject esriTypeMap templates name alias type len context)
    as [o|e] eqn:Ho.
  - split; [intros _|eauto].
    destruct (decide (name = "OBJECTID")) as [|Hname]; [by left|right].
    destruct type as [ty|];
      [|by rewrite computeFieldObject_no_type in Ho].
    exists ty. split; [reflexivity|]. unfold accepted.
    destruct (esriTypeMap (toLowerCase ty)) as [esriType|e] eqn:Hmap; [eauto|].
    assert (computeFieldObject esriTypeMap templates name alias (Some ty) len
              context = Err e) as He.
    { apply computeFieldObject_Err. split; [assumption|]. right. eauto. }
    congruence.
  - apply computeFieldObject_Err in Ho as [Hname Hwhy]. split.
    + intros [o [=]].
    + intros [?|(ty & -> & esriType & Hmap)]; [contradiction|].
      destruct Hwhy as [[[=] _]|(ty' & [= <-] & He)]. congruence.
Qed.

Lemma computeFieldsFromProperties_unfold (props : RawSample RawValue)
    (requestContext : option string) :
  computeFieldsFromProperties detectType esriTypeMap templates (Some props)
    requestContext
  = match array_map (property_object detectType esriTypeMap templates
                       requestContext) props with
    | Ok fs =>
        Ok (Labeled "OBJECTID"
              (oidFirst
                 (if bool_decide (requestContext = Some "layer") &&
                     negb (existsb (is_named "OBJECTID") fs)
                  then fs ++ [Object_assign
                                (Object_assign ∅ (objectIDField templates))
                                {[ "editable" := Bool false;
                                   "nullable" := Bool false ]}]
                  else fs)))
    | Err e => Err e
    end.
Proof. reflexivity. Qed.

Lemma computeFieldsCollection_metadata_unfold (data : Data RawValue)
    (requestContext : option string) (options : Options RawValue)
    (metadataFields : list MetadataField) :
  metadata data ≫= fields = Some metadataFields ->
  snd (computeFieldsCollection detectType esriTypeMap templates data
         requestContext options)
  = match array_map (field_object esriTypeMap templates requestContext)
            (computeFieldsFromMetadata metadataFields (outFields options)) with
    | Ok fs => Ok (Some (oidFirst fs))
    | Err e => Err e
    end.
Proof.
  intros Hmd. by rewrite (computeFieldsCollection_metadata _ _ _ _ _ _ _ Hmd).
Qed.

(** X4: [computeFieldsFromProperties] on a sample returns unless [esriTypeMap]
    throws on the detected type of a key other than [OBJECTID]; the
    exception it throws is then the one of [esriTypeMap], never one of its
    own. *)
Theorem computeFieldsFromProperties_outcome (props : RawSample RawValue)
    (requestContext : option string) :
  ((exists r, computeFieldsFromProperties detectType esriTypeMap templates
                (Some props) requestContext = Ok r) <->
   forall k v, (k, v) ∈ props ->
     k = "OBJECTID" \/ accepted esriTypeMap (detectType v)) /\
  forall e,
    computeFieldsFromProperties detectType esriTypeMap templates (Some props)
      requestContext = Err e ->
    exists k v, (k, v) ∈ props /\ k <> "OBJECTID" /\
      esriTypeMap (toLowerCase (detectType v)) = Err e.
Proof.
  rewrite computeFieldsFromProperties_unfold. split.
  - transitivity (exists fs,
      array_map (property_object detectType esriTypeMap templates requestContext)
        props = Ok fs).
    { destruct (array_map _ props) as [fs|e]; split; eauto.
      - intros [r [=]].
      - intros [fs [=]]. }
    rewrite array_map_total, Forall_forall. split.
    + intros H k v Hkv. specialize (H _ Hkv). simpl in H.
      apply computeFieldObject_Ok in H as [?|(ty & [= <-] & ?)]; auto.
    + intros H [k v] Hkv. simpl. apply computeFieldObject_Ok.
      destruct (H k v Hkv); [by left|right; eauto].
  - intros e He.
    destruct (array_map _ props) as [fs|e'] eqn:Hmap; [discriminate|].
    injection He as ->.
    apply array_map_Err_inv in Hmap as ([k v] & Hkv & Hf). simpl in Hf.
    apply computeFieldObject_Err in Hf
      as [Hk [[[=] _]|(ty & [= <-] & Hmap)]].
    eauto.
Qed.

(** X5: With metadata fields, [computeFieldsCollection] returns exactly when
    every requested field other than [OBJECTID] has a type that
    [esriTypeMap] maps; when it throws, a requested field other than
    [OBJECTID] lacks a type ([TypeError]) or has one that [esriTypeMap]
    throws on. *)
Theorem computeFieldsCollection_outcome (data : Data RawValue)
    (requestContext : option string) (options : Options RawValue)
    (metadataFields : list MetadataField) :
  metadata data ≫= fields = Some metadataFields ->
  ((exists res, snd (computeFieldsCollection detectType esriTypeMap templates
                       data requestContext options) = Ok res) <->
   forall f, f ∈ computeFieldsFromMetadata metadataFields (outFields options) ->
     field_name f = "OBJECTID" \/
     exists ty, field_type f = Some ty /\ accepted esriTypeMap ty) /\
  forall e,
    snd (computeFieldsCollection detectType esriTypeMap templates data
           requestContext options) = Err e ->
    exists f, f ∈ computeFieldsFromMetadata metadataFields (outFields options) /\
      field_name f <> "OBJECTID" /\
      (field_type f = None /\ e = TypeError \/
       exists ty, field_type f = Some ty /\
         esriTypeMap (toLowerCase ty) = Err e).
Proof.
  intros Hmd. rewrite (computeFieldsCollection_metadata_unfold _ _ _ _ Hmd).
  split.
  - transitivity (exists fs,
      array_map (field_object esriTypeMap templates requestContext)
        (computeFieldsFromMetadata metadataFields (outFields options)) = Ok fs).
    { destruct (array_map _ _) as [fs|e]; split; eauto.
      - intros [r [=]].
      - intros [fs [=]]. }
    rewrite array_map_total, Forall_forall. split.
    + intros H f Hf.
      apply (computeFieldObject_Ok (field_name f) (field_alias f) (field_type f)
               (field_length f) requestContext). by apply H.
    + intros H f Hf. apply computeFieldObject_Ok. by apply H.
  - intros e He.
    destruct (array_map _ _) as [fs|e'] eqn:Hmap; [discriminate|].
    injection He as ->.
    apply array_map_Err_inv in Hmap as (f & Hf & Hbuild).
    apply computeFieldObject_Err in Hbuild as [Hname Hwhy]. eauto.
Qed.

End CollectionContract.

(** ** The fields of a returned collection *)

Section CollectionShape.

Context {RawValue : Type}.
Variable detectType : RawValue -> string.
Variable esriTypeMap : string -> result string.
Variable templates : Templates.

Lemma decorated_objects (requestContext : option string) {A}
    (build : A -> result object) (a : list A) (fs : list object) :
  (forall x o, build x = Ok o ->
     requestContext = Some "layer" -> decorated o) ->
  requestContext = Some "layer" ->
  Forall2 (fun x o => build x = Ok o) a fs -> Forall decorated fs.
Proof.
  intros Hbuild Hctx H. induction H; constructor; eauto.
Qed.

Lemma computeFieldObject_layer_decorated (name : string)
    (alias type : option string) (len : option Z) (o : object) :
  computeFieldObject esriTypeMap templates name alias type len (Some "layer")
  = Ok o -> decorated o.
Proof.
  intros Ho.
  destruct (computeFieldObject_layer_step esriTypeMap templates _ _ _ _ _ _ Ho)
    as (o0 & _ & ->).
  apply decorated_layer.
Qed.

Lemma property_object_not_named (k : string) (v : RawValue)
    (requestContext : option string) (o : object) :
  k <> "OBJECTID" ->
  property_object detectType esriTypeMap templates requestContext (k, v) = Ok o ->
  is_named "OBJECTID" o = false.
Proof.
  unfold property_object. intros Hk Ho.
  by apply (computeFieldObject_not_named esriTypeMap templates k (Some k)
              (Some (detectType v)) None requestContext).
Qed.

Lemma field_object_not_named (f : MetadataField)
    (requestContext : option string) (o : object) :
  field_name f <> "OBJECTID" ->
  field_object esriTypeMap templates requestContext f = Ok o ->
  is_named "OBJECTID" o = false.
Proof.
  unfold field_object. intros Hf Ho.
  by apply (computeFieldObject_not_named esriTypeMap templates (field_name f)
              (field_alias f) (field_type f) (field_length f) requestContext).
Qed.

(** X6: In the [layer] context the collection of a sample is never empty and
    holds no [undefined]; each of its fields has [editable: false] and
    [nullable: false]. *)
Theorem computeFieldsFromProperties_layer (props : RawSample RawValue)
    (r : FieldsFromProperties) :
  computeFieldsFromProperties detectType esriTypeMap templates (Some props)
    (Some "layer") = Ok r ->
  exists fs, fs <> [] /\ r = Labeled "OBJECTID" (Some <$> fs) /\
    Forall decorated fs.
Proof.
  rewrite computeFieldsFromProperties_unfold.
  destruct (array_map _ props) as [fs0|e] eqn:Hmap; [|discriminate].
  intros [= <-]. apply array_map_Ok in Hmap.
  assert (Forall decorated fs0) as Hdec.
  { eapply (decorated_objects (Some "layer")); [|reflexivity|exact Hmap].
    intros [k v] o Ho _. by apply computeFieldObject_layer_decorated in Ho. }
  set (fs1 := if negb (existsb (is_named "OBJECTID") fs0) then _ else fs0).
  assert (fs1 <> [] /\ Forall decorated fs1) as [Hne Hdec1].
  { unfold fs1. destruct (existsb (is_named "OBJECTID") fs0) eqn:Hex; simpl.
    - split; [|assumption]. intros ->. discriminate.
    - split; [by destruct fs0|]. apply Forall_app. split; [assumption|].
      constructor; [apply decorated_layer|constructor]. }
  destruct (oidFirst_Permutation fs1 Hne) as (fs & -> & Hperm).
  exists fs. split; [|split; [reflexivity|]].
  - intros ->. apply Permutation_nil_l in Hperm. congruence.
  - by rewrite Hperm.
Qed.

(** X7: Without a field named [OBJECTID], the reordering step moves the last
    field to the front: outside the [layer] context, a sample without a key
    [OBJECTID] gives the field of its last key first, then the fields of
    the other keys in their order. *)
Theorem computeFieldsFromProperties_last_first (props : RawSample RawValue)
    (k : string) (v : RawValue) (requestContext : option string)
    (r : FieldsFromProperties) :
  requestContext <> Some "layer" ->
  "OBJECTID" ∉ (props ++ [(k, v)]).*1 ->
  computeFieldsFromProperties detectType esriTypeMap templates
    (Some (props ++ [(k, v)])) requestContext = Ok r ->
  exists fs x,
    array_map (property_object detectType esriTypeMap templates requestContext)
      props = Ok fs /\
    property_object detectType esriTypeMap templates requestContext (k, v)
    = Ok x /\
    r = Labeled "OBJECTID" (Some x :: (Some <$> fs)).
Proof.
  intros Hctx Hkeys. rewrite computeFieldsFromProperties_unfold.
  destruct (array_map _ (props ++ [(k, v)])) as [fs0|e] eqn:Hmap; [|discriminate].
  intros [= <-]. apply array_map_Ok in Hmap.
  rewrite (bool_decide_eq_false_2 _ Hctx). cbn [andb].
  apply Forall2_app_inv_l in Hmap as (fs & xs & Hfs & Hx & ->).
  inversion Hx as [|? x ? ? Hkv Hnil]; subst. inversion Hnil; subst.
  exists fs, x. split; [by apply array_map_Ok|]. split; [assumption|].
  f_equal. apply oidFirst_missing.
  rewrite fmap_app, not_elem_of_app in Hkeys. destruct Hkeys as [Hprops Hk].
  apply Forall_app. split.
  - clear Hx Hnil Hkv. induction Hfs as [|[k' v'] o props fs Ho _ IH];
      constructor.
    + rewrite fmap_cons, not_elem_of_cons in Hprops.
      eapply property_object_not_named; [|exact Ho].
      destruct Hprops as [Hk' _]. simpl in Hk'. congruence.
    + apply IH. rewrite fmap_cons, not_elem_of_cons in Hprops.
      by destruct Hprops.
  - constructor; [|constructor].
    eapply property_object_not_named; [|exact Hkv].
    rewrite fmap_cons, not_elem_of_cons in Hk. destruct Hk as [Hk _].
    simpl in Hk. congruence.
Qed.

(** X8: The same on the metadata path: when no requested field is named
    [OBJECTID] (the [outFields] list omits it), the field object of the last
    requested field comes first in the collection. *)
Theorem computeFieldsCollection_last_first (data : Data RawValue)
    (requestContext : option string) (options : Options RawValue)
    (metadataFields requested : list MetadataField) (f : MetadataField)
    (res : option (list element)) :
  metadata data ≫= fields = Some metadataFields ->
  computeFieldsFromMetadata metadataFields (outFields options)
  = requested ++ [f] ->
  Forall (fun g => field_name g <> "OBJECTID") (requested ++ [f]) ->
  snd (computeFieldsCollection detectType esriTypeMap templates data
         requestContext options) = Ok res ->
  exists fs x,
    array_map (field_object esriTypeMap templates requestContext) requested
    = Ok fs /\
    field_object esriTypeMap templates requestContext f = Ok x /\
    res = Some (Some x :: (Some <$> fs)).
Proof.
  intros Hmd Hreq Hnames.
  rewrite (computeFieldsCollection_metadata_unfold _ _ _ _ _ _ _ Hmd), Hreq.
  destruct (array_map _ (requested ++ [f])) as [fs0|e] eqn:Hmap; [|discriminate].
  intros [= <-]. apply array_map_Ok in Hmap.
  apply Forall2_app_inv_l in Hmap as (fs & xs & Hfs & Hx & ->).
  inversion Hx as [|? x ? ? Hf Hnil]; subst. inversion Hnil; subst.
  exists fs, x. split; [by apply array_map_Ok|]. split; [assumption|].
  do 2 f_equal. apply oidFirst_missing.
  apply Forall_app in Hnames as [Hrequested Hlast].
  apply Forall_app. split.
  - clear Hx Hnil Hf Hreq. induction Hfs as [|g o requested fs Ho _ IH];
      constructor.
    + eapply field_object_not_named; [|exact Ho]. by inversion Hrequested.
    + apply IH. by inversion Hrequested.
  - constructor; [|constructor].
    eapply field_object_not_named; [|exact Hf]. by inversion Hlast.
Qed.

(** X9: When the [outFields] list names neither a metadata field nor
    [OBJECTID], no field is requested, and the collection that
    [computeFieldsCollection] returns is an array whose only element is
    [undefined]. *)
Theorem computeFieldsCollection_nothing_requested (data : Data RawValue)
    (requestContext : option string) (options : Options RawValue)
    (metadataFields : list MetadataField) (s : string) :
  metadata data ≫= fields = Some metadataFields ->
  outFields options = Some s -> s <> "" -> s <> "*" ->
  "OBJECTID" ∉ split_commas s ->
  Forall (fun f => field_name f ∉ split_commas s) metadataFields ->
  computeFieldsFromMetadata metadataFields (outFields options) = [] /\
  snd (computeFieldsCollection detectType esriTypeMap templates data
         requestContext options) = Ok (Some [None]).
Proof.
  intros Hmd Hs Hempty Hstar Hoid Hnames.
  assert (computeFieldsFromMetadata metadataFields (outFields options) = [])
    as Hreq.
  { rewrite Hs, computeFieldsFromMetadata_unfold. unfold unfiltered.
    cbn [truthy_string default]. apply String.eqb_neq in Hempty as ->.
    rewrite bool_decide_eq_false_2 by congruence. cbn [negb orb].
    assert (Forall (fun f => field_name f ∉ split_commas s)
              (with_objectid metadataFields)) as Hall.
    { unfold with_objectid. destruct (find_field _ _); [assumption|].
      apply Forall_app. split; [assumption|]. by constructor. }
    induction Hall as [|f l Hf _ IH]; [reflexivity|]. simpl.
    by rewrite (bool_decide_eq_false_2 _ Hf). }
  split; [assumption|].
  rewrite (computeFieldsCollection_metadata_unfold _ _ _ _ _ _ _ Hmd), Hreq.
  reflexivity.
Qed.

Hypothesis objectIDField_name :
  objectIDField templates !! "name" = Some (Str "OBJECTID").

Lemma names_of_objects {A} (build : A -> result object) (name_of : A -> string)
    (a : list A) (fs : list object) :
  (forall x o, build x = Ok o -> o !! "name" = Some (Str (name_of x))) ->
  Forall2 (fun x o => build x = Ok o) a fs ->
  (fun o : object => o !! "name") <$> fs
  = (fun x => Some (Str (name_of x))) <$> a.
Proof.
  intros Hbuild H. induction H as [|x o a fs Ho _ IH]; [reflexivity|].
  rewrite !fmap_cons, IH. f_equal. eauto.
Qed.

Lemma existsb_named_objects {A} (build : A -> result object)
    (name_of : A -> string) (a : list A) (fs : list object) :
  (forall x o, build x = Ok o -> o !! "name" = Some (Str (name_of x))) ->
  Forall2 (fun x o => build x = Ok o) a fs ->
  existsb (is_named "OBJECTID") fs = bool_decide ("OBJECTID" ∈ name_of <$> a).
Proof.
  intros Hbuild H. induction H as [|x o a fs Ho _ IH].
  - cbn [existsb]. symmetry. apply bool_decide_eq_false_2.
    rewrite fmap_nil. apply not_elem_of_nil.
  - cbn [existsb]. rewrite IH, fmap_cons. unfold is_named.
    rewrite (Hbuild x o Ho).
    destruct (decide (name_of x = "OBJECTID")) as [Heq|Hne].
    + rewrite Heq. rewrite bool_decide_eq_true_2 by reflexivity. cbn [orb].
      symmetry. apply bool_decide_eq_true_2. by left.
    + rewrite bool_decide_eq_false_2 by congruence. cbn [orb].
      apply bool_decide_ext. rewrite elem_of_cons.
      split; [by right|]. intros [?|?]; [congruence|assumption].
Qed.

(** X10: One field per key: when [computeFieldsFromProperties] returns for a
    sample that has a key, or in the [layer] context, the collection holds
    no [undefined], and the names of its fields are, up to their order, the
    keys of the sample, with [OBJECTID] added in the [layer] context when it
    is no key. So the names are distinct, as the keys of an object are. *)
Theorem computeFieldsFromProperties_names (props : RawSample RawValue)
    (requestContext : option string) (r : FieldsFromProperties) :
  field_names_of_sample requestContext props.*1 <> [] ->
  computeFieldsFromProperties detectType esriTypeMap templates (Some props)
    requestContext = Ok r ->
  exists fs, r = Labeled "OBJECTID" (Some <$> fs) /\
    (fun o : object => o !! "name") <$> fs
    ≡ₚ (fun k => Some (Str k)) <$> field_names_of_sample requestContext props.*1 /\
    (NoDup props.*1 -> NoDup ((fun o : object => o !! "name") <$> fs)).
Proof.
  intros Hne. rewrite computeFieldsFromProperties_unfold.
  destruct (array_map _ props) as [fs0|e] eqn:Hmap; [|discriminate].
  intros [= <-]. apply array_map_Ok in Hmap.
  assert (forall (kv : string * RawValue) o,
    property_object detectType esriTypeMap templates requestContext kv = Ok o ->
    o !! "name" = Some (Str (fst kv))) as Hbuild.
  { intros [k v] o Ho. simpl in *.
    by apply (computeFieldObject_name esriTypeMap templates) in Ho. }
  pose proof (names_of_objects _ fst _ _ Hbuild Hmap) as Hnames.
  pose proof (existsb_named_objects _ fst _ _ Hbuild Hmap) as Hex.
  rewrite Hex. unfold field_names_of_sample in *.
  set (fs1 := if _ && _ then fs0 ++ _ else fs0).
  assert ((fun o : object => o !! "name") <$> fs1
          = (fun k => Some (Str k))
              <$> (if bool_decide (requestContext = Some "layer") &&
                      negb (bool_decide ("OBJECTID" ∈ props.*1))
                   then props.*1 ++ ["OBJECTID"] else props.*1)) as Hnames1.
  { unfold fs1. destruct (_ && _).
    - rewrite !fmap_app, Hnames, <- list_fmap_compose. f_equal. simpl.
      f_equal. pose proof decorated_objectIDField_named as Hn.
      specialize (Hn templates objectIDField_name).
      unfold is_named in Hn. by apply bool_decide_eq_true in Hn.
    - by rewrite Hnames, <- list_fmap_compose. }
  assert (fs1 <> []) as Hne1.
  { intros Hnil. rewrite Hnil in Hnames1. simpl in Hnames1.
    symmetry in Hnames1. apply fmap_nil_inv in Hnames1. contradiction. }
  destruct (oidFirst_Permutation fs1 Hne1) as (fs & -> & Hperm).
  exists fs. split; [reflexivity|]. split.
  - by rewrite Hperm, Hnames1.
  - intros Hnd. rewrite Hperm, Hnames1.
    assert (Inj eq eq (fun k : string => Some (Str k))) as Hinj.
    { intros k1 k2 [= ->]. reflexivity. }
    apply (NoDup_fmap_2 _).
    destruct (bool_decide (requestContext = Some "layer")); cbn [andb];
      [|assumption].
    destruct (bool_decide ("OBJECTID" ∈ props.*1)) eqn:Hin; cbn [negb];
      [assumption|].
    apply bool_decide_eq_false in Hin.
    apply NoDup_app. split; [assumption|]. split; [|apply NoDup_singleton].
    intros k Hk ->%list_elem_of_singleton. contradiction.
Qed.

(** X11: One field per requested field: when [computeFieldsCollection] returns on
    the metadata path and a field is requested, the collection holds no
    [undefined]; the names of its fields are, up to their order, the names
    of the requested fields, and in the [layer] context each field has
    [editable: false] and [nullable: false]. *)
Theorem computeFieldsCollection_names (data : Data RawValue)
    (requestContext : option string) (options : Options RawValue)
    (metadataFields : list MetadataField) (res : option (list element)) :
  metadata data ≫= fields = Some metadataFields ->
  computeFieldsFromMetadata metadataFields (outFields options) <> [] ->
  snd (computeFieldsCollection detectType esriTypeMap templates data
         requestContext options) = Ok res ->
  exists fs, res = Some (Some <$> fs) /\
    (fun o : object => o !! "name") <$> fs
    ≡ₚ (fun f => Some (Str (field_name f)))
         <$> computeFieldsFromMetadata metadataFields (outFields options) /\
    (requestContext = Some "layer" -> Forall decorated fs).
Proof.
  intros Hmd Hne.
  rewrite (computeFieldsCollection_metadata_unfold _ _ _ _ _ _ _ Hmd).
  destruct (array_map _ _) as [fs0|e] eqn:Hmap; [|discriminate].
  intros [= <-]. apply array_map_Ok in Hmap.
  assert (fs0 <> []) as Hne0.
  { intros ->. by inversion Hmap. }
  destruct (oidFirst_Permutation fs0 Hne0) as (fs & -> & Hperm).
  exists fs. split; [reflexivity|]. split.
  - rewrite Hperm.
    rewrite (names_of_objects (field_object esriTypeMap templates requestContext)
               field_name _ _ ltac:(
                 intros f o Ho;
                 by apply (computeFieldObject_name esriTypeMap templates) in Ho)
               Hmap).
    reflexivity.
  - intros Hctx. rewrite Hperm.
    eapply (decorated_objects requestContext); [|exact Hctx|exact Hmap].
    intros f o Ho ->. by apply computeFieldObject_layer_decorated in Ho.
Qed.

End CollectionShape.

(** ** More on the warnings *)

Section Warnings.

Context {RawValue : Type}.
Variable detectType : RawValue -> string.
Variable esriTypeMap : string -> result string.
Variable templates : Templates.

Lemma find_feature_None (props : RawSample RawValue) (k : string) :
  List.find (fun ff : string * string => bool_decide (fst ff = k))
    ((fun '(name, v) => (name, detectType v)) <$> props) = None
  <-> k ∉ props.*1.
Proof.
  induction props as [|[k' v'] props IH].
  - split; [intros _; apply not_elem_of_nil|reflexivity].
  - rewrite !fmap_cons, not_elem_of_cons. cbn [List.find fst].
    destruct (decide (k' = k)) as [->|Hne].
    + rewrite (bool_decide_eq_true_2 (k = k)) by reflexivity.
      split; [discriminate|]. by intros [? _].
    + rewrite (bool_decide_eq_false_2 (k' = k)) by assumption.
      rewrite IH. split; [intros ?; split; congruence|by intros [_ ?]].
Qed.

Lemma warn_cons (f : MetadataField) (metadataFields : list MetadataField)
    (props : RawSample RawValue) :
  warnOnMetadataFieldDiscrepencies detectType (f :: metadataFields) props
  = warnOnMetadataFieldDiscrepencies detectType [f] props ++
    warnOnMetadataFieldDiscrepencies detectType metadataFields props.
Proof.
  unfold warnOnMetadataFieldDiscrepencies. cbn [flat_map].
  by rewrite app_nil_r.
Qed.

Lemma warn_missing (f : MetadataField) (props : RawSample RawValue) :
  field_name f ∉ props.*1 ->
  warnOnMetadataFieldDiscrepencies detectType [f] props
  = [NotFound (field_name f) (field_type_property f)].
Proof.
  intros Hf. apply find_feature_None in Hf.
  unfold warnOnMetadataFieldDiscrepencies. cbn [flat_map].
  by rewrite Hf.
Qed.

Lemma warn_found (f : MetadataField) (props : RawSample RawValue) (v : RawValue) :
  NoDup props.*1 -> (field_name f, v) ∈ props ->
  warnOnMetadataFieldDiscrepencies detectType [f] props
  = if negb (bool_decide (field_name f = "OBJECTID")) &&
       negb (bool_decide (field_type f = Some "Date") &&
             bool_decide (detectType v = "Integer")) &&
       negb (bool_decide (field_type f = Some "Double") &&
             bool_decide (detectType v = "Integer")) &&
       negb (bool_decide (field_type f = Some (detectType v)))
    then [TypeMismatch (field_name f) (field_type_property f) (field_name f)
            (detectType v)]
    else [].
Proof.
  intros Hnd Hv. unfold warnOnMetadataFieldDiscrepencies. cbn [flat_map].
  rewrite (find_feature_field detectType props (field_name f) v Hnd Hv).
  cbn [fst snd]. by rewrite app_nil_r.
Qed.

(** X12: A metadata field gets the warning that it was not found exactly when
    the sample has no property of its name; the identifier field is no
    exception. *)
Theorem not_found_warning (metadataFields : list MetadataField)
    (props : RawSample RawValue) (f : MetadataField) :
  f ∈ metadataFields ->
  NotFound (field_name f) (field_type_property f)
    ∈ warnOnMetadataFieldDiscrepencies detectType metadataFields props
  <-> field_name f ∉ props.*1.
Proof.
  intros Hf. rewrite warnings_of_field. split.
  - intros (g & Hg & Hw).
    destruct (List.find _ _) as [ff|] eqn:Hfind in Hw.
    + destruct (_ && _) in Hw; [|by apply elem_of_nil in Hw].
      apply list_elem_of_singleton in Hw. discriminate.
    + apply list_elem_of_singleton in Hw. injection Hw as Hn _.
      rewrite Hn. by apply find_feature_None in Hfind.
  - intros Hno. exists f. split; [assumption|].
    apply find_feature_None in Hno. rewrite Hno. by left.
Qed.

Lemma find_feature_Some (props : RawSample RawValue) (k : string)
    (ff : string * string) :
  List.find (fun ff : string * string => bool_decide (fst ff = k))
    ((fun '(name, v) => (name, detectType v)) <$> props) = Some ff ->
  exists v, (k, v) ∈ props /\ ff = (k, detectType v).
Proof.
  induction props as [|[k' v'] props IH]; [discriminate|].
  rewrite fmap_cons. cbn [List.find fst].
  destruct (decide (k' = k)) as [->|Hne].
  - rewrite (bool_decide_eq_true_2 (k = k)) by reflexivity.
    intros [= <-]. exists v'. split; [by left|reflexivity].
  - rewrite (bool_decide_eq_false_2 (k' = k)) by assumption.
    intros Hfind. destruct (IH Hfind) as (v & Hv & ->).
    exists v. split; [by right|reflexivity].
Qed.

(** What the loop body writes for one field: at most one warning, and it
    is about that field. *)
Lemma warn_one (f : MetadataField) (props : RawSample RawValue) :
  (length (warnOnMetadataFieldDiscrepencies detectType [f] props) <= 1)%nat /\
  forall w, w ∈ warnOnMetadataFieldDiscrepencies detectType [f] props ->
    w = NotFound (field_name f) (field_type_property f) \/
    exists v, (field_name f, v) ∈ props /\
      w = TypeMismatch (field_name f) (field_type_property f) (field_name f)
            (detectType v).
Proof.
  unfold warnOnMetadataFieldDiscrepencies. cbn [flat_map]. rewrite app_nil_r.
  destruct (List.find _ _) as [ff|] eqn:Hfind.
  - apply find_feature_Some in Hfind as (v & Hv & ->). cbn [fst snd].
    destruct (_ && _).
    + split; [reflexivity|]. intros w ->%list_elem_of_singleton. right. eauto.
    + split; [simpl; lia|]. intros w []%elem_of_nil.
  - split; [reflexivity|]. intros w ->%list_elem_of_singleton. by left.
Qed.

Lemma warn_flat_map (metadataFields : list MetadataField)
    (props : RawSample RawValue) :
  warnOnMetadataFieldDiscrepencies detectType metadataFields props
  = flat_map (fun f => warnOnMetadataFieldDiscrepencies detectType [f] props)
      metadataFields.
Proof.
  induction metadataFields as [|f metadataFields IH]; [reflexivity|].
  rewrite warn_cons. cbn [flat_map]. by rewrite IH.
Qed.

(** X13: At most one warning is written per metadata field: the warnings
    of a sequence of metadata fields are, in the order of the fields, the
    warnings of each field taken alone, and a field alone gets at most one
    warning, which is about that field (the field was not found, or its
    type differs from the detected type of the property of its name). So
    there are no more warnings than fields. And, the keys of the sample
    being distinct, none is written exactly when every metadata field has a
    property of its name in the sample and is named [OBJECTID], or has the
    detected type of that property, or has the type [Date] or [Double]
    while an [Integer] is detected. *)
Theorem warnings_silent (metadataFields : list MetadataField)
    (props : RawSample RawValue) :
  NoDup props.*1 ->
  warnOnMetadataFieldDiscrepencies detectType metadataFields props
  = flat_map (fun f => warnOnMetadataFieldDiscrepencies detectType [f] props)
      metadataFields /\
  (forall f,
     (length (warnOnMetadataFieldDiscrepencies detectType [f] props) <= 1)%nat /\
     forall w, w ∈ warnOnMetadataFieldDiscrepencies detectType [f] props ->
       w = NotFound (field_name f) (field_type_property f) \/
       exists v, (field_name f, v) ∈ props /\
         w = TypeMismatch (field_name f) (field_type_property f) (field_name f)
               (detectType v)) /\
  (length (warnOnMetadataFieldDiscrepencies detectType metadataFields props)
   <= length metadataFields)%nat /\
  (warnOnMetadataFieldDiscrepencies detectType metadataFields props = [] <->
   forall f, f ∈ metadataFields ->
     exists v, (field_name f, v) ∈ props /\
       (field_name f = "OBJECTID" \/
        field_type f = Some (detectType v) \/
        detectType v = "Integer" /\
        (field_type f = Some "Date" \/ field_type f = Some "Double"))).
Proof.
  intros Hnd. split; [apply warn_flat_map|].
  split; [intros f; apply warn_one|].
  assert (forall f,
    (warnOnMetadataFieldDiscrepencies detectType [f] props = [] <->
     exists v, (field_name f, v) ∈ props /\
       (field_name f = "OBJECTID" \/
        field_type f = Some (detectType v) \/
        detectType v = "Integer" /\
        (field_type f = Some "Date" \/ field_type f = Some "Double"))))
    as Hone.
  { intros f. destruct (decide (field_name f ∈ props.*1)) as [Hin|Hout].
    - apply list_elem_of_fmap in Hin as ([k v] & Hk & Hkv). simpl in Hk.
      subst k.
      assert (forall v', (field_name f, v') ∈ props ->
                detectType v' = detectType v) as Hsame.
      { intros v' Hv'.
        pose proof (find_feature_field detectType props _ _ Hnd Hkv) as H1.
        pose proof (find_feature_field detectType props _ _ Hnd Hv') as H2.
        congruence. }
      rewrite (warn_found f props v Hnd Hkv). split.
      + intros Hnil. exists v. split; [assumption|].
        repeat case_bool_decide; simpl in Hnil; try discriminate; auto.
      + intros (v' & Hv' & Hwhy). rewrite (Hsame v' Hv') in Hwhy.
        repeat case_bool_decide; simpl; try reflexivity;
          intuition congruence.
    - rewrite (warn_missing f props Hout).
      split; [discriminate|]. intros (v & Hv & _). exfalso. apply Hout.
      apply list_elem_of_fmap. by exists (field_name f, v). }
  induction metadataFields as [|f metadataFields [IHlen IHnil]].
  - split; [reflexivity|]. split; [|reflexivity].
    intros _ f Hf. by apply elem_of_nil in Hf.
  - rewrite warn_cons, length_app. destruct (warn_one f props) as [Hlen _].
    pose proof (Hone f) as Hnil. split.
    + change (length (f :: metadataFields)) with (S (length metadataFields)).
      lia.
    + split.
      * intros [H1 H2]%app_eq_nil g [->|Hg]%elem_of_cons.
        -- by apply Hnil.
        -- by apply IHnil.
      * intros H.
        rewrite (proj2 Hnil) by (apply H; by left).
        apply IHnil. intros g Hg. apply H. by right.
Qed.

(** X14: With metadata fields, the sample only feeds the warnings: the value
    that [computeFieldsCollection] returns, or the exception it throws,
    is the same whatever the features, the statistics and the attribute
    sample are. *)
Theorem computeFieldsCollection_sample_irrelevant
    (data data' : Data RawValue) (requestContext : option string)
    (options options' : Options RawValue)
    (metadataFields : list MetadataField) :
  metadata data ≫= fields = Some metadataFields ->
  metadata data' ≫= fields = Some metadataFields ->
  outFields options = outFields options' ->
  snd (computeFieldsCollection detectType esriTypeMap templates data
         requestContext options)
  = snd (computeFieldsCollection detectType esriTypeMap templates data'
           requestContext options').
Proof.
  intros Hmd Hmd' Hout.
  rewrite (computeFieldsCollection_metadata _ _ _ _ _ _ _ Hmd).
  rewrite (computeFieldsCollection_metadata _ _ _ _ _ _ _ Hmd').
  by rewrite Hout.
Qed.

(** X15: Without metadata fields, statistics come before features: when the
    statistics are an empty array, [computeFieldsCollection] returns
    [undefined] and writes no warning, whatever the features and the
    attribute sample hold. *)
Theorem computeFieldsCollection_empty_statistics (data : Data RawValue)
    (requestContext : option string) (options : Options RawValue) :
  metadata data ≫= fields = None ->
  statistics data = Some [] ->
  computeFieldsCollection detectType esriTypeMap templates data requestContext
    options = ([], Ok None).
Proof.
  intros Hmd Hst. rewrite computeFieldsCollection_sample by assumption.
  unfold inspected_sample. rewrite Hst. reflexivity.
Qed.

End Warnings.

(** ** More on the requested fields *)

Lemma no_comma_skip_spaces (s : string) :
  no_comma s = true -> no_comma (skip_spaces s) = true.
Proof.
  induction s as [|c s IH]; [reflexivity|]. cbn [skip_spaces].
  destruct (is_space c); [|done]. cbn [no_comma].
  intros [_ Hs]%andb_true_iff. by apply IH.
Qed.

Lemma exec_separator_no_comma (s : string) :
  no_comma s = true -> exec_separator s = None.
Proof.
  intros Hs. apply no_comma_skip_spaces in Hs. unfold exec_separator.
  destruct (skip_spaces s) as [|c t]; [reflexivity|]. cbn [no_comma] in Hs.
  apply andb_true_iff in Hs as [Hc _]. apply negb_true_iff in Hc.
  by rewrite Hc.
Qed.

Lemma split_loop_no_comma (n : nat) (cur s : string) :
  no_comma s = true -> (String.length s <= n)%nat ->
  split_loop n cur s = [cur +:+ s].
Proof.
  revert n cur. induction s as [|c s IH]; intros n cur Hs Hn.
  - by rewrite split_loop_nil, string_app_nil_r.
  - destruct n as [|n]; [simpl in Hn; lia|]. cbn [split_loop].
    rewrite exec_separator_no_comma by assumption.
    cbn [no_comma] in Hs. apply andb_true_iff in Hs as [_ Hs].
    rewrite IH by (assumption || (simpl in Hn; lia)).
    by rewrite string_app_assoc.
Qed.

Lemma split_commas_no_comma (s : string) :
  no_comma s = true -> split_commas s = [s].
Proof.
  intros Hs. unfold split_commas. by rewrite split_loop_no_comma.
Qed.

Lemma no_comma_app (s t : string) :
  no_comma (s +:+ t) = no_comma s && no_comma t.
Proof.
  induction s as [|c s IH]; [reflexivity|].
  rewrite string_app_cons. cbn [no_comma]. by rewrite IH, andb_assoc.
Qed.

Lemma exec_separator_at_comma (c : ascii) (s : string) :
  is_comma c = true -> exec_separator (String c s) = Some (skip_spaces s).
Proof.
  intros Hc. unfold exec_separator. cbn [skip_spaces].
  destruct (is_space c) eqn:Hsp.
  - apply space_not_comma in Hsp. congruence.
  - by rewrite Hc.
Qed.

(** No piece of the parsed list holds a comma. *)
Lemma split_loop_pieces (n : nat) (cur s : string) :
  (String.length s <= n)%nat -> no_comma cur = true ->
  Forall (fun piece => no_comma piece = true) (split_loop n cur s).
Proof.
  revert cur s. induction n as [|n IH]; intros cur s Hn Hcur.
  - destruct s; [|simpl in Hn; lia]. by repeat constructor.
  - destruct s as [|c s]; [by repeat constructor|]. cbn [split_loop].
    destruct (exec_separator (String c s)) as [after|] eqn:Hex.
    + constructor; [assumption|]. apply IH; [|reflexivity].
      apply exec_separator_shorter in Hex. simpl in Hn, Hex. lia.
    + apply IH; [simpl in Hn; lia|].
      rewrite no_comma_app, Hcur. cbn [no_comma andb].
      destruct (is_comma c) eqn:Hc; [|reflexivity].
      by rewrite exec_separator_at_comma in Hex.
Qed.

Lemma split_commas_pieces (s : string) :
  Forall (fun piece => no_comma piece = true) (split_commas s).
Proof. by apply split_loop_pieces. Qed.

Lemma computeFieldsFromMetadata_filtering
    (metadataFields : list MetadataField) (s : string) :
  s <> "" -> s <> "*" ->
  computeFieldsFromMetadata metadataFields (Some s)
  = List.filter (fun f => bool_decide (field_name f ∈ split_commas s))
      (with_objectid metadataFields).
Proof.
  intros Hempty Hstar. rewrite computeFieldsFromMetadata_unfold.
  unfold unfiltered. simpl. apply String.eqb_neq in Hempty as ->.
  rewrite bool_decide_eq_false_2 by congruence. reflexivity.
Qed.

(** X16: An [outFieldsParam] without a comma is one name, white space included:
    the output is the metadata fields of exactly that name (with [OBJECTID]
    when the parameter is [OBJECTID]). *)
Theorem computeFieldsFromMetadata_one_name
    (metadataFields : list MetadataField) (s : string) :
  s <> "" -> s <> "*" -> no_comma s = true ->
  computeFieldsFromMetadata metadataFields (Some s)
  = List.filter (field_named s) (with_objectid metadataFields).
Proof.
  intros Hempty Hstar Hs.
  rewrite (computeFieldsFromMetadata_filtering metadataFields s Hempty Hstar).
  rewrite split_commas_no_comma by assumption.
  apply List.filter_ext. intros f. unfold field_named.
  apply bool_decide_ext. apply list_elem_of_singleton.
Qed.

(** X17: Under a filter, a metadata field whose name holds a comma is never
    returned: no name of the parsed list holds one. *)
Theorem computeFieldsFromMetadata_no_comma
    (metadataFields : list MetadataField) (s : string) (f : MetadataField) :
  s <> "" -> s <> "*" ->
  f ∈ computeFieldsFromMetadata metadataFields (Some s) ->
  no_comma (field_name f) = true.
Proof.
  intros Hempty Hstar Hf.
  rewrite (computeFieldsFromMetadata_filtering metadataFields s Hempty Hstar)
    in Hf.
  apply list_elem_of_In, List.filter_In in Hf as [_ Hin].
  apply bool_decide_eq_true in Hin.
  pose proof (split_commas_pieces s) as Hpieces.
  rewrite Forall_forall in Hpieces. by apply Hpieces.
Qed.

Lemma find_field_is_Some (s : string) (a : list MetadataField) :
  is_Some (find_field s a) <-> exists f, f ∈ a /\ field_name f = s.
Proof.
  split.
  - intros [f Hf]. exists f. by apply find_field_Some.
  - intros (f & Hf & Hs).
    destruct (find_field s a) as [g|] eqn:Hfind; [eauto|].
    apply find_field_None in Hfind. rewrite Forall_forall in Hfind.
    by destruct (Hfind f Hf).
Qed.

Lemma with_objectid_has_OBJECTID (metadataFields : list MetadataField) :
  is_Some (find_field "OBJECTID" (with_objectid metadataFields)).
Proof.
  unfold with_objectid.
  destruct (find_field "OBJECTID" metadataFields) as [f|] eqn:Hfind.
  - by rewrite Hfind.
  - apply find_field_is_Some. exists objectid_entry.
    split; [|reflexivity]. apply elem_of_app. right. by left.
Qed.

(** X18: When the metadata has a field named [OBJECTID], no entry is added: the
    output is a subsequence of the metadata fields, and the metadata fields
    themselves when nothing is filtered. *)
Theorem computeFieldsFromMetadata_keeps_OBJECTID
    (metadataFields : list MetadataField) (outFieldsParam : option string)
    (f : MetadataField) :
  f ∈ metadataFields -> field_name f = "OBJECTID" ->
  sublist (computeFieldsFromMetadata metadataFields outFieldsParam)
    metadataFields /\
  (unfiltered outFieldsParam = true ->
   computeFieldsFromMetadata metadataFields outFieldsParam = metadataFields).
Proof.
  intros Hf Hname. rewrite computeFieldsFromMetadata_unfold.
  assert (with_objectid metadataFields = metadataFields) as ->.
  { unfold with_objectid.
    destruct (proj2 (find_field_is_Some "OBJECTID" metadataFields)) as [g ->];
      eauto. }
  destruct (unfiltered outFieldsParam).
  - split; reflexivity.
  - split; [apply filter_sublist|discriminate].
Qed.

Lemma filter_filter_same {A} (p : A -> bool) (a : list A) :
  List.filter p (List.filter p a) = List.filter p a.
Proof.
  induction a as [|x a IH]; [reflexivity|]. simpl.
  destruct (p x) eqn:Hx; simpl; rewrite ?Hx, IH; reflexivity.
Qed.

(** X19: Requesting the fields of requested fields changes nothing: with the
    same [outFieldsParam], [computeFieldsFromMetadata] gives back the
    sequence it is given when that sequence is one of its outputs. *)
Theorem computeFieldsFromMetadata_idempotent
    (metadataFields : list MetadataField) (outFieldsParam : option string) :
  computeFieldsFromMetadata
    (computeFieldsFromMetadata metadataFields outFieldsParam) outFieldsParam
  = computeFieldsFromMetadata metadataFields outFieldsParam.
Proof.
  rewrite !computeFieldsFromMetadata_unfold.
  pose proof (with_objectid_has_OBJECTID metadataFields) as Hhas.
  destruct (unfiltered outFieldsParam).
  - unfold with_objectid at 1. by destruct Hhas as [g ->].
  - set (names := split_commas (default "" outFieldsParam)).
    set (keep := fun f => bool_decide (field_name f ∈ names)).
    unfold with_objectid at 1.
    destruct (find_field "OBJECTID"
                (List.filter keep (with_objectid metadataFields)))
      as [g|] eqn:Hfind.
    + apply filter_filter_same.
    + rewrite List.filter_app, filter_filter_same.
      assert (keep objectid_entry = false) as Hdrop.
      { apply find_field_is_Some in Hhas as (g & Hg & Hname).
        apply find_field_None in Hfind. rewrite Forall_forall in Hfind.
        unfold keep. apply bool_decide_eq_false_2. intros Hin.
        apply (Hfind g); [|assumption].
        apply list_elem_of_In, List.filter_In. split; [by apply list_elem_of_In|].
        unfold keep. apply bool_decide_eq_true_2. by rewrite Hname. }
      simpl. rewrite Hdrop. apply app_nil_r.
Qed.

(** ** More on the store *)

Module HeapSharing.

Import Heap HeapFacts.

Lemma filter_from_elements (h : heap) (p : MetadataField -> bool)
    (elems kept : list loc) :
  filter_from h p elems = Some kept -> kept ⊆ elems.
Proof.
  revert kept. induction elems as [|l elems IH]; intros kept; simpl.
  - intros [= <-]. reflexivity.
  - destruct (read_object h l) as [o|]; [|discriminate]. simpl.
    destruct (filter_from h p elems) as [kept'|]; [|discriminate]. simpl.
    intros [= <-]. specialize (IH kept' eq_refl). destruct (p o).
    + intros x [->|Hx]%elem_of_cons; [by left|]. right. by apply IH.
    + intros x Hx. right. by apply IH.
Qed.

(** The state after [_.clone] and the conditional [push], with the
    elements of the new array: those of the caller's array, followed by a
    new object when [OBJECTID] was missing. *)
Lemma completed_elements (h : heap) (a : loc) (elems : list loc)
    (fs : list MetadataField) :
  read_array h a = Some elems -> mapM (read_object h) elems = Some fs ->
  exists r h2 elems2,
    h2 !! r = Some (Array elems2) /\
    is_Some (mapM (read_object h2) elems2) /\
    (forall l, l ∈ elems2 ->
       l ∈ elems \/ h !! l = None /\ h2 !! l = Some (Object objectid_entry)) /\
    forall B (k : loc -> M B),
      (responseFields ← clone a;
       found ← find "OBJECTID" a;
       _ ← match found with
           | Some _ => mret tt
           | None =>
               o ← alloc (Object {| field_name := "OBJECTID"; field_alias := None;
                                    field_type_property := NoType; field_length := None |});
               push responseFields o
           end;
       k responseFields) h = k r h2.
Proof.
  intros Ha Hfs.
  destruct (clone_spec h a elems Ha) as (r & Hclone & Hr).
  set (h1 := <[r := Array elems]> h) in *.
  assert (h ⊆ h1) as Hsub1 by by apply insert_subseteq.
  pose proof (read_array_subseteq _ _ _ _ Hsub1 Ha) as Ha1.
  pose proof (read_objects_subseteq _ _ _ _ Hsub1 Hfs) as Hfs1.
  destruct (find_from_spec h1 "OBJECTID" elems fs Hfs1)
    as (found & Hfound & Hiff).
  assert (find "OBJECTID" a h1 = Some (found, h1)) as Hfind.
  { unfold find. rewrite Ha1. simpl. by rewrite Hfound. }
  destruct found as [l|].
  - exists r, h1, elems.
    split; [apply lookup_insert_eq|]. split; [eauto|]. split; [by left|].
    intros B k. unfold mbind, M_bind. rewrite Hclone, Hfind. reflexivity.
  - destruct (alloc_fresh h1 (Object objectid_entry)) as (o & Halloc & Ho).
    set (h1' := <[o := Object objectid_entry]> h1) in *.
    assert (h1 ⊆ h1') as Hsub1' by by apply insert_subseteq.
    assert (read_array h1' r = Some elems) as Hr1'.
    { eapply read_array_subseteq; [exact Hsub1'|]. apply read_array_insert. }
    assert (o <> r) as Hor.
    { intros ->. unfold h1 in Ho. by rewrite lookup_insert_eq in Ho. }
    assert (<[r := Array (elems ++ [o])]> h1' !! o
            = Some (Object objectid_entry)) as Hnew.
    { rewrite lookup_insert_ne by congruence.
      unfold h1'. by rewrite lookup_insert_eq. }
    exists r, (<[r := Array (elems ++ [o])]> h1'), (elems ++ [o]).
    split; [apply lookup_insert_eq|]. split; [|split].
    + exists (fs ++ [objectid_entry]). rewrite mapM_Some. apply Forall2_app.
      * apply mapM_Some in Hfs1. eapply Forall2_impl; [exact Hfs1|].
        intros l f Hl. unfold read_object in *.
        destruct (h1 !! l) as [c|] eqn:Hl1; [|discriminate].
        assert (l <> r).
        { intros ->. unfold h1 in Hl1. rewrite lookup_insert_eq in Hl1.
          injection Hl1 as <-. discriminate. }
        rewrite lookup_insert_ne by congruence.
        by rewrite (lookup_weaken _ _ _ _ Hl1 Hsub1').
      * constructor; [|constructor]. unfold read_object. by rewrite Hnew.
    + intros l [Hl|Hl%list_elem_of_singleton]%elem_of_app; [by left|].
      subst l. right. split; [|assumption].
      destruct (h !! o) as [c|] eqn:Hho; [|reflexivity].
      rewrite (lookup_weaken _ _ _ _ Hho Hsub1) in Ho. discriminate.
    + intros B k. unfold mbind, M_bind. rewrite Hclone, Hfind.
      change (alloc _ h1) with (alloc (Object objectid_entry) h1).
      rewrite Halloc. fold h1'.
      by rewrite (push_spec _ _ _ _ Hr1').
Qed.

End HeapSharing.

Import HeapSharing.

(** X20: The array that [computeFieldsFromMetadata] returns shares its objects
    with the caller: each of its elements is an element of the caller's
    array, the same object and no copy, or the object [{ name: 'OBJECTID' }]
    that the call created. *)
Theorem computeFieldsFromMetadata_shares_objects
    (h : Heap.heap) (metadataFields : Heap.loc) (outFieldsParam : option string)
    (elems : list Heap.loc) (fs : list MetadataField) :
  Heap.read_array h metadataFields = Some elems ->
  mapM (Heap.read_object h) elems = Some fs ->
  exists responseFields h' elems',
    Heap.computeFieldsFromMetadata metadataFields outFieldsParam h
    = Some (responseFields, h') /\
    Heap.read_array h' responseFields = Some elems' /\
    forall l, l ∈ elems' ->
      l ∈ elems \/
      h !! l = None /\ h' !! l = Some (Heap.Object objectid_entry).
Proof.
  intros Ha Hfs.
  destruct (completed_elements h metadataFields elems fs Ha Hfs)
    as (r & h2 & elems2 & Hr2 & [fs2 Hfs2] & Hshare & Hrun).
  unfold Heap.computeFieldsFromMetadata. rewrite Hrun.
  destruct (truthy_string outFieldsParam &&
            negb (bool_decide (outFieldsParam = Some "*"))).
  - destruct (filter_from_spec h2
      (fun f => bool_decide
         (field_name f ∈ split_commas (default "" outFieldsParam)))
      elems2 _ Hfs2) as (kept & Hkept & _).
    destruct (alloc_fresh h2 (Heap.Array kept)) as (r' & Halloc & Hr').
    exists r', (<[r' := Heap.Array kept]> h2), kept.
    split; [|split].
    + unfold Heap.filter, Heap.read_array. rewrite Hr2. simpl.
      rewrite Hkept. simpl. exact Halloc.
    + apply read_array_insert.
    + intros l Hl. apply filter_from_elements in Hkept.
      destruct (Hshare l (Hkept l Hl)) as [?|[Hnew Hobj]]; [by left|].
      right. split; [assumption|].
      rewrite lookup_insert_ne; [assumption|]. congruence.
  - exists r, h2, elems2. split; [reflexivity|]. split; [|assumption].
    unfold Heap.read_array. by rewrite Hr2.
Qed.

(** ** The further properties on concrete inputs *)

(** An empty alias gives way to the name. *)
Lemma contract_empty_alias :
  exists o,
    computeFieldObject Sample.esriTypeMap Sample.templates "x" (Some "")
      (Some "Double") None (Some "layer") = Ok o /\
    o !! "name" = Some (Str "x") /\
    o !! "type" = Some (Str "esriFieldTypeDouble") /\
    o !! "alias" = Some (Str "x").
Proof.
  destruct (computeFieldObject_contract Sample.esriTypeMap Sample.templates
              "x" (Some "") "Double" None (Some "layer") "esriFieldTypeDouble"
              ltac:(discriminate) eq_refl) as (o & Ho & Hn & Ht & Ha & _).
  exists o. repeat split; assumption.
Defined.

(** The identifier field in the [layer] context is decorated. *)
Lemma decoration_of_identifier :
  decorated
    (Object_assign (objectIDField Sample.templates)
       {[ "editable" := Bool false; "nullable" := Bool false ]}).
Proof.
  exact (computeFieldObject_decoration Sample.esriTypeMap Sample.templates
           "OBJECTID" None None None (Some "layer") _
           (computeFieldObject_OBJECTID Sample.esriTypeMap Sample.templates
              None None None (Some "layer"))).
Defined.

(** The metadata [[a; c]], [c] without a type: the call throws, and the
    theorem finds the field. *)
Lemma outcome_untyped :
  exists f,
    f ∈ computeFieldsFromMetadata [Inputs.typed_a; Inputs.untyped_c] None /\
    field_name f <> "OBJECTID" /\
    (field_type f = None /\ TypeError = TypeError \/
     exists ty, field_type f = Some ty /\
       Sample.esriTypeMap (toLowerCase ty) = Err TypeError).
Proof.
  apply (proj2 (computeFieldsCollection_outcome Sample.detectType
                  Sample.esriTypeMap Sample.templates Inputs.with_untyped None
                  (Inputs.requesting None)
                  [Inputs.typed_a; Inputs.untyped_c] eq_refl) TypeError).
  vm_compute. reflexivity.
Defined.

(** The sample [{ a: 1, b: 'x' }] in the [layer] context. *)
Lemma layer_sample_decorated :
  exists r fs,
    computeFieldsFromProperties Sample.detectType Sample.esriTypeMap
      Sample.templates (Some Inputs.sample_ab) (Some "layer") = Ok r /\
    fs <> [] /\ r = Labeled "OBJECTID" (Some <$> fs) /\ Forall decorated fs.
Proof.
  destruct (computeFieldsFromProperties Sample.detectType Sample.esriTypeMap
              Sample.templates (Some Inputs.sample_ab) (Some "layer"))
    as [r|e] eqn:Hr; [|vm_compute in Hr; discriminate].
  destruct (computeFieldsFromProperties_layer Sample.detectType
              Sample.esriTypeMap Sample.templates Inputs.sample_ab r Hr)
    as (fs & Hne & Heq & Hdec).
  exists r, fs. repeat split; assumption.
Defined.

(** The sample [{ a: 1, b: 'x' }] without a context: [b] comes first. *)
Lemma sample_last_first :
  exists r fs x,
    computeFieldsFromProperties Sample.detectType Sample.esriTypeMap
      Sample.templates (Some ([("a", Sample.RInt 1)] ++ [("b", Sample.RStr "x")]))
      None = Ok r /\
    array_map (property_object Sample.detectType Sample.esriTypeMap
                 Sample.templates None) [("a", Sample.RInt 1)] = Ok fs /\
    property_object Sample.detectType Sample.esriTypeMap Sample.templates None
      ("b", Sample.RStr "x") = Ok x /\
    r = Labeled "OBJECTID" (Some x :: (Some <$> fs)).
Proof.
  destruct (computeFieldsFromProperties Sample.detectType Sample.esriTypeMap
              Sample.templates
              (Some ([("a", Sample.RInt 1)] ++ [("b", Sample.RStr "x")])) None)
    as [r|e] eqn:Hr; [|vm_compute in Hr; discriminate].
  destruct (computeFieldsFromProperties_last_first Sample.detectType
              Sample.esriTypeMap Sample.templates [("a", Sample.RInt 1)]
              "b" (Sample.RStr "x") None r) as (fs & x & Hfs & Hx & Heq).
  - discriminate.
  - apply (bool_decide_eq_false_1 _). reflexivity.
  - exact Hr.
  - exists r, fs, x. repeat split; assumption.
Defined.

(** The metadata [[a; b]] with [outFields] set to [a , b]: [b] comes first. *)
Lemma requested_last_first :
  exists res fs x,
    snd (computeFieldsCollection Sample.detectType Sample.esriTypeMap
           Sample.templates Inputs.metadata_only None
           (Inputs.requesting (Some "a , b"))) = Ok res /\
    array_map (field_object Sample.esriTypeMap Sample.templates None)
      [Inputs.typed_a] = Ok fs /\
    field_object Sample.esriTypeMap Sample.templates None Inputs.typed_b = Ok x /\
    res = Some (Some x :: (Some <$> fs)).
Proof.
  destruct (snd (computeFieldsCollection Sample.detectType Sample.esriTypeMap
                   Sample.templates Inputs.metadata_only None
                   (Inputs.requesting (Some "a , b"))))
    as [res|e] eqn:Hres; [|vm_compute in Hres; discriminate].
  destruct (computeFieldsCollection_last_first Sample.detectType
              Sample.esriTypeMap Sample.templates Inputs.metadata_only None
              (Inputs.requesting (Some "a , b"))
              [Inputs.typed_a; Inputs.typed_b] [Inputs.typed_a] Inputs.typed_b
              res eq_refl eq_refl) as (fs & x & Hfs & Hx & Heq).
  - repeat constructor; discriminate.
  - exact Hres.
  - exists res, fs, x. repeat split; assumption.
Defined.

(** The metadata [[a; b]] with [outFields] set to [zz]. *)
Lemma nothing_requested_zz :
  computeFieldsFromMetadata [Inputs.typed_a; Inputs.typed_b] (Some "zz") = [] /\
  snd (computeFieldsCollection Sample.detectType Sample.esriTypeMap
         Sample.templates Inputs.metadata_only None
         (Inputs.requesting (Some "zz"))) = Ok (Some [None]).
Proof.
  apply (computeFieldsCollection_nothing_requested Sample.detectType
           Sample.esriTypeMap Sample.templates Inputs.metadata_only None
           (Inputs.requesting (Some "zz")) [Inputs.typed_a; Inputs.typed_b] "zz"
           eq_refl eq_refl).
  - discriminate.
  - discriminate.
  - apply (bool_decide_eq_false_1 _). reflexivity.
  - repeat constructor; apply (bool_decide_eq_false_1 _); reflexivity.
Defined.

(** The sample [{ a: 1, b: 'x' }] without a context: the names are the keys. *)
Lemma names_of_sample_ab :
  exists r fs,
    computeFieldsFromProperties Sample.detectType Sample.esriTypeMap
      Sample.templates (Some Inputs.sample_ab) None = Ok r /\
    r = Labeled "OBJECTID" (Some <$> fs) /\
    (fun o : object => o !! "name") <$> fs
    ≡ₚ [Some (Str "a"); Some (Str "b")].
Proof.
  destruct (computeFieldsFromProperties Sample.detectType Sample.esriTypeMap
              Sample.templates (Some Inputs.sample_ab) None)
    as [r|e] eqn:Hr; [|vm_compute in Hr; discriminate].
  destruct (computeFieldsFromProperties_names Sample.detectType
              Sample.esriTypeMap Sample.templates eq_refl Inputs.sample_ab
              None r ltac:(discriminate) Hr) as (fs & Heq & Hperm & _).
  exists r, fs. repeat split; assumption.
Defined.

(** The metadata [[a; b]] in the [layer] context: three decorated fields. *)
Lemma names_of_requested :
  exists res fs,
    snd (computeFieldsCollection Sample.detectType Sample.esriTypeMap
           Sample.templates Inputs.metadata_only (Some "layer")
           (Inputs.requesting None)) = Ok res /\
    res = Some (Some <$> fs) /\
    (fun o : object => o !! "name") <$> fs
    ≡ₚ [Some (Str "a"); Some (Str "b"); Some (Str "OBJECTID")] /\
    Forall decorated fs.
Proof.
  destruct (snd (computeFieldsCollection Sample.detectType Sample.esriTypeMap
                   Sample.templates Inputs.metadata_only (Some "layer")
                   (Inputs.requesting None)))
    as [res|e] eqn:Hres; [|vm_compute in Hres; discriminate].
  destruct (computeFieldsCollection_names Sample.detectType
              Sample.esriTypeMap Sample.templates eq_refl Inputs.metadata_only
              (Some "layer") (Inputs.requesting None)
              [Inputs.typed_a; Inputs.typed_b] res eq_refl
              ltac:(discriminate) Hres) as (fs & Heq & Hperm & Hdec).
  exists res, fs. repeat split; [assumption..|by apply Hdec].
Defined.

(** The metadata [[a; b]] against the sample [{ a: 1 }]: [b] is not found. *)
Lemma b_not_found :
  NotFound "b" (TypeLabel "String")
    ∈ warnOnMetadataFieldDiscrepencies Sample.detectType
        [Inputs.typed_a; Inputs.typed_b] [("a", Sample.RInt 1)].
Proof.
  apply (proj2 (not_found_warning Sample.detectType
                  [Inputs.typed_a; Inputs.typed_b] [("a", Sample.RInt 1)]
                  Inputs.typed_b
                  (list_elem_of_further _ _ _ (list_elem_of_here _ _)))).
  apply (bool_decide_eq_false_1 _). reflexivity.
Defined.

(** The metadata [[a; b]] against the sample [{ a: 1, b: 'x' }]: silence. *)
Lemma silent_on_sample_ab :
  warnOnMetadataFieldDiscrepencies Sample.detectType
    [Inputs.typed_a; Inputs.typed_b] Inputs.sample_ab = [].
Proof.
  apply (proj2 (proj2 (proj2 (proj2 (warnings_silent Sample.detectType
                         [Inputs.typed_a; Inputs.typed_b] Inputs.sample_ab
                         ltac:(apply (bool_decide_eq_true_1 _);
                               reflexivity)))))).
  intros f [->|[->|[]%elem_of_nil]%elem_of_cons]%elem_of_cons.
  - exists (Sample.RInt 1). split; [by left|]. right. by left.
  - exists (Sample.RStr "x"). split; [right; by left|]. right. by left.
Defined.

(** With or without the feature, the metadata [[a; b]] gives one result. *)
Lemma feature_irrelevant :
  snd (computeFieldsCollection Sample.detectType Sample.esriTypeMap
         Sample.templates Inputs.with_feature None (Inputs.requesting None))
  = snd (computeFieldsCollection Sample.detectType Sample.esriTypeMap
           Sample.templates Inputs.metadata_only None (Inputs.requesting None)).
Proof.
  exact (computeFieldsCollection_sample_irrelevant Sample.detectType
           Sample.esriTypeMap Sample.templates Inputs.with_feature
           Inputs.metadata_only None (Inputs.requesting None)
           (Inputs.requesting None) [Inputs.typed_a; Inputs.typed_b]
           eq_refl eq_refl eq_refl).
Defined.

(** An empty array of statistics hides the feature. *)
Lemma empty_statistics_undefined :
  computeFieldsCollection Sample.detectType Sample.esriTypeMap Sample.templates
    Inputs.empty_statistics None (Inputs.requesting None) = ([], Ok None).
Proof.
  exact (computeFieldsCollection_empty_statistics Sample.detectType
           Sample.esriTypeMap Sample.templates Inputs.empty_statistics None
           (Inputs.requesting None) eq_refl eq_refl).
Defined.

(** A parameter with white space and no comma is one name. *)
Lemma one_name_with_space :
  computeFieldsFromMetadata [Inputs.typed_a; Inputs.typed_b] (Some " b")
  = List.filter (field_named " b")
      (with_objectid [Inputs.typed_a; Inputs.typed_b]).
Proof.
  apply (computeFieldsFromMetadata_one_name [Inputs.typed_a; Inputs.typed_b]
           " b"); [discriminate|discriminate|reflexivity].
Defined.

(** The field [b], requested by [a,b]. *)
Lemma requested_name_no_comma : no_comma (field_name Inputs.typed_b) = true.
Proof.
  apply (computeFieldsFromMetadata_no_comma [Inputs.typed_a; Inputs.typed_b]
           "a,b" Inputs.typed_b); [discriminate|discriminate|].
  assert (computeFieldsFromMetadata [Inputs.typed_a; Inputs.typed_b] (Some "a,b")
          = [Inputs.typed_a; Inputs.typed_b]) as -> by reflexivity.
  apply list_elem_of_further, list_elem_of_here.
Defined.

(** The metadata [[OBJECTID; a]] is returned as it is. *)
Lemma declared_OBJECTID_kept :
  sublist
    (computeFieldsFromMetadata [Inputs.declared_oid; Inputs.typed_a] None)
    [Inputs.declared_oid; Inputs.typed_a] /\
  (unfiltered None = true ->
   computeFieldsFromMetadata [Inputs.declared_oid; Inputs.typed_a] None
   = [Inputs.declared_oid; Inputs.typed_a]).
Proof.
  apply (computeFieldsFromMetadata_keeps_OBJECTID
           [Inputs.declared_oid; Inputs.typed_a] None Inputs.declared_oid).
  - apply list_elem_of_here.
  - reflexivity.
Defined.

(** On the store that holds [[a; b]], with [outFields] set to [b]. *)
Lemma shares_objects_on_store :
  exists responseFields h' elems',
    Heap.computeFieldsFromMetadata 1%positive (Some "b") Inputs.store
    = Some (responseFields, h') /\
    Heap.read_array h' responseFields = Some elems' /\
    forall l, l ∈ elems' ->
      l ∈ [2%positive; 3%positive] \/
      Inputs.store !! l = None /\ h' !! l = Some (Heap.Object objectid_entry).
Proof.
  apply (computeFieldsFromMetadata_shares_objects Inputs.store 1%positive
           (Some "b") [2%positive; 3%positive]
           [Inputs.typed_a; Inputs.typed_b]).
  - vm_compute. reflexivity.
  - vm_compute. reflexivity.
Defined.

(** ** The warning about the added identifier field *)

Section IdentifierWarning.

Context {RawValue : Type}.
Variable detectType : RawValue -> string.
Variable esriTypeMap : string -> result string.
Variable templates : Templates.

Lemma computeFieldsCollection_warnings (data : Data RawValue)
    (requestContext : option string) (options : Options RawValue)
    (metadataFields : list MetadataField) (props : RawSample RawValue) :
  metadata data ≫= fields = Some metadataFields ->
  feature_sample data options = Some props ->
  fst (computeFieldsCollection detectType esriTypeMap templates data
         requestContext options)
  = warnOnMetadataFieldDiscrepencies detectType
      (computeFieldsFromMetadata metadataFields (outFields options)) props.
Proof.
  intros Hmd Hprops. unfold computeFieldsCollection, feature_sample in *.
  rewrite Hmd, Hprops. reflexivity.
Qed.

(** X21: The entry that [computeFieldsFromMetadata] adds is checked against the
    sample like a declared field: when the metadata has no field named
    [OBJECTID], [outFields] lets [OBJECTID] through, and the sample of the
    first feature (or the attribute sample) has no property [OBJECTID],
    [computeFieldsCollection] warns that the metadata field [OBJECTID], of
    type [undefined], was not found. *)
Theorem added_OBJECTID_not_found (data : Data RawValue)
    (requestContext : option string) (options : Options RawValue)
    (metadataFields : list MetadataField) (props : RawSample RawValue) :
  metadata data ≫= fields = Some metadataFields ->
  feature_sample data options = Some props ->
  Forall (fun f => field_name f <> "OBJECTID") metadataFields ->
  lets_through "OBJECTID" (outFields options) = true ->
  "OBJECTID" ∉ props.*1 ->
  NotFound "OBJECTID" NoType
    ∈ fst (computeFieldsCollection detectType esriTypeMap templates data
             requestContext options) /\
  message (NotFound "OBJECTID" NoType)
  = "Metadata field OBJECTID (undefined) not found in feature properties object.".
Proof.
  intros Hmd Hprops Hno Hthrough Hkey. split; [|reflexivity].
  rewrite (computeFieldsCollection_warnings _ _ _ _ _ Hmd Hprops).
  apply warnings_of_field. exists objectid_entry. split.
  - rewrite computeFieldsFromMetadata_unfold.
    assert (with_objectid metadataFields = metadataFields ++ [objectid_entry])
      as ->.
    { unfold with_objectid. by apply find_field_None in Hno as ->. }
    unfold lets_through in Hthrough.
    destruct (unfiltered (outFields options)).
    + apply elem_of_app. right. by left.
    + simpl in Hthrough. apply list_elem_of_In, List.filter_In.
      split; [|exact Hthrough]. apply list_elem_of_In, elem_of_app.
      right. by left.
  - apply (find_feature_None detectType) in Hkey.
    change (field_name objectid_entry) with "OBJECTID". rewrite Hkey.
    by left.
Qed.

End IdentifierWarning.

(** The metadata [[a; b]] against a feature with [{ a: 1, b: 'x' }]. *)
Lemma added_OBJECTID_not_found_ab :
  NotFound "OBJECTID" NoType
    ∈ fst (computeFieldsCollection Sample.detectType Sample.esriTypeMap
             Sample.templates Inputs.with_feature None
             (Inputs.requesting None)).
Proof.
  apply (added_OBJECTID_not_found Sample.detectType Sample.esriTypeMap
           Sample.templates Inputs.with_feature None (Inputs.requesting None)
           [Inputs.typed_a; Inputs.typed_b] Inputs.sample_ab eq_refl eq_refl).
  - repeat constructor; discriminate.
  - reflexivity.
  - apply (bool_decide_eq_false_1 _). reflexivity.
Defined.
